(** * ProjectBalance: recurring-transaction projection and balance simulation

    A shallow embedding of [projectBalance.py]: the [Transaction] class,
    [projectDiffs], and the three series computed by [createBalanceGraph]
    (running balance, savings-adjusted balance, lower limit), followed by
    the properties established about them.

    Numbers.  Transaction amounts are Python [int]s, modelled by [Z].  The
    loops of [createBalanceGraph] are embedded twice.  [simulate] and
    [computeLowerLimit] run them over the exact rationals [Q]: what the code
    computes when every number is exact (an [int] or a [Fraction]), with
    Python's numeric [==] as [Qeq].  [simulate_num] and
    [computeLowerLimit_num] run the same loops over [Num.num], Python's
    exact numbers together with its binary64 floats, with the conversions
    and the rounding of mixed arithmetic; the two agree on exact inputs
    ([exact_run]). *)

From Stdlib Require Import ZArith QArith Lqa Lia String Ascii DecimalString.
From Stdlib Require Import Floats.
From stdpp Require Import list.

Open Scope Z_scope.

(** ** Python built-ins used by the program *)

Module Py.

(** [str(n)] for an [int]: decimal digits, with a leading minus sign. *)
Definition str (n : Z) : string := NilZero.string_of_int (Z.to_int n).

(** The slice [s[1:]]. *)
Definition slice_from_1 (s : string) : string :=
  match s with
  | EmptyString => EmptyString
  | String _ rest => rest
  end.

(** [sep.join(l)]. *)
Definition join (sep : string) (l : list string) : string :=
  String.concat sep l.

(** [sum(l)]: left-to-right additions starting from [0]. *)
Definition sum (l : list Z) : Z := fold_left Z.add l 0.

(** Truthiness of an optional string: [None] and [""] are falsy. *)
Definition truthy (s : option string) : bool :=
  match s with
  | None => false
  | Some EmptyString => false
  | Some (String _ _) => true
  end.

(** [x < y] on exact numbers. *)
Definition ltb (x y : Q) : bool := negb (Qle_bool y x).

(** A number or [float("inf")]. *)
Inductive bound : Type :=
| Finite (q : Q)
| Inf.

(** [min(a, b)] with [a] a number: the second argument is returned only
    when it is strictly smaller than the first. *)
Definition min (a : Q) (b : bound) : Q :=
  match b with
  | Inf => a
  | Finite q => if ltb q a then q else a
  end.

(** [list(enumerate(l))]. *)
Definition enumerate {A : Type} (l : list A) : list (nat * A) :=
  combine (seq 0 (length l)) l.

End Py.

(** ** Dates and the daily recurrence *)

(** A [datetime]: the proleptic-Gregorian ordinal of its calendar day and
    the microseconds elapsed since midnight.  Python orders datetimes
    lexicographically on these two components. *)
Record datetime : Type := mkdatetime {
  day_ordinal : Z;
  usec_of_day : Z
}.

(** [dt.date()] *)
Definition date (dt : datetime) : Z := day_ordinal dt.

Definition datetime_ltb (a b : datetime) : bool :=
  (day_ordinal a <? day_ordinal b)
  || ((day_ordinal a =? day_ordinal b) && (usec_of_day a <? usec_of_day b)).

Definition datetime_lt (a b : datetime) : Prop := datetime_ltb a b = true.

(** [dt + timedelta(days=k)] *)
Definition add_days (dt : datetime) (k : Z) : datetime :=
  {| day_ordinal := day_ordinal dt + k; usec_of_day := usec_of_day dt |}.

(** [dt.replace(microsecond=0)] *)
Definition replace_microsecond_0 (dt : datetime) : datetime :=
  {| day_ordinal := day_ordinal dt;
     usec_of_day := 1000000 * (usec_of_day dt / 1000000) |}.

(** The occurrences of [rrule(DAILY, dtstart=..., until=...)] (dateutil).
    The rule keeps [dtstart] with its microseconds dropped, steps by one
    day keeping the time of day, and stops at the first occurrence that is
    later than [until], compared as full timestamps. *)
Fixpoint daily_occurrences (fuel : nat) (cur until : datetime) : list datetime :=
  match fuel with
  | O => []
  | S fuel' =>
      if datetime_ltb until cur then []
      else cur :: daily_occurrences fuel' (add_days cur 1) until
  end.

Definition daily_fuel (start until : datetime) : nat :=
  Z.to_nat (day_ordinal until - day_ordinal start + 1).

Definition rrule_DAILY (dtstart until : datetime) : list datetime :=
  let start := replace_microsecond_0 dtstart in
  daily_occurrences (daily_fuel start until) start until.

(** Number of calendar days from [fromDate] to [toDate], both included. *)
Definition numberOfDaysInclusive (fromDate toDate : datetime) : nat :=
  Z.to_nat (date toDate - date fromDate + 1).

(** ** class Transaction *)

(** The values the constructor may receive for [when]: [None], a
    [datetime], an [rrule] (given by the finite sequence of datetimes it
    enumerates), or an object of any other type. *)
Inductive pyobj : Type :=
| PyNone
| PyDatetime (dt : datetime)
| PyRRule (occurrences : list datetime)
| PyOther.

Definition is_None (o : pyobj) : bool :=
  match o with PyNone => true | _ => false end.

Definition isinstance_datetime (o : pyobj) : bool :=
  match o with PyDatetime _ => true | _ => false end.

Definition isinstance_rrule (o : pyobj) : bool :=
  match o with PyRRule _ => true | _ => false end.

Record Transaction : Type := mkTransaction {
  when : pyobj;
  amount : Z;
  name : option string
}.

Inductive exn : Type :=
| ValueError (msg : string).

(** [Transaction.__init__(when, amount, name=None)]; an absent [amount] is
    [None]. *)
Definition Transaction_init (when : pyobj) (amount : option Z)
    (name : option string) : exn + Transaction :=
  match amount with
  | None =>
      inl (ValueError "Transaction missing required constructor parameter...")
  | Some a =>
      if is_None when then
        inl (ValueError "Transaction missing required constructor parameter...")
      else if negb (isinstance_datetime when || isinstance_rrule when) then
        inl (ValueError "Transaction .when was not correct type")
      else
        inr {| when := when; amount := a; name := name |}
  end.

(** [x in iterable] on calendar days. *)
Definition date_in (d : Z) (ds : list Z) : bool :=
  existsb (fun e => d =? e) ds.

Definition doesTransactForDay (self : Transaction) (dayTime : datetime) : bool :=
  match when self with
  | PyDatetime w => date w =? date dayTime
  | PyRRule r => date_in (date dayTime) (map date r)
  | _ => false
  end.

Definition getAmountForDay (self : Transaction) (dayTime : datetime) : Z :=
  if doesTransactForDay self dayTime then amount self else 0.

(** The text built by the last line of [getFormattedName]. *)
Definition formattedName (self : Transaction) : string :=
  ((if Py.truthy (name self)
    then default EmptyString (name self) ++ ": " else "")
   ++ (if (amount self <? 0)%Z then "-" else "")
   ++ "$"
   ++ (if (amount self <? 0)%Z then Py.slice_from_1 (Py.str (amount self))
       else Py.str (amount self)))%string.

(** [getFormattedName(dayTime=None)]; a [datetime] is always truthy. *)
Definition getFormattedName (self : Transaction) (dayTime : option datetime)
    : string :=
  match dayTime with
  | Some d => if negb (doesTransactForDay self d) then "" else formattedName self
  | None => formattedName self
  end.

(** The text [getFormattedName] returns as the specification words it,
    for a given reading [name_is_set] of "a name is set": empty when a day
    is given on which the transaction does not fire; otherwise the name and
    [": "] when a name is set, then ["-$"] and the absolute value when the
    amount is negative, else ["$"] and the amount. *)
Definition described_formattedName (name_is_set : option string -> bool)
    (self : Transaction) (dayTime : option datetime) : string :=
  let fires :=
    match dayTime with
    | Some d => doesTransactForDay self d
    | None => true
    end in
  if negb fires then ""
  else
    ((match name self with
      | Some n => if name_is_set (Some n) then n ++ ": " else ""
      | None => ""
      end)
     ++ (if (amount self <? 0)%Z then "-$" ++ Py.str (Z.abs (amount self))
         else "$" ++ Py.str (amount self)))%string.

(** "A name is set" read as: the optional name is present. *)
Definition name_present (n : option string) : bool :=
  match n with Some _ => true | None => false end.

(** The first day of the test run, 20 December 2012, at midnight. *)
Definition day0 : datetime := mkdatetime 734857 0.

(** The objects of the program's own [test()]: the five days [ds], the
    transactions [t], [t2] and [t3]. *)
Definition ds (k : Z) : datetime := add_days day0 k.

Definition test_t : Transaction := mkTransaction (PyDatetime (ds 0)) 20 None.

Definition test_t3 : Transaction :=
  mkTransaction (PyDatetime (ds 0)) (-20) (Some "Wowe"%string).

(** ** projectDiffs *)

(** The objects live during the loop of [projectDiffs]: the caller's
    [transactions] list and the two local result lists. *)
Record pd_state : Type := mk_pd_state {
  pd_transactions : list Transaction;
  pd_diffs : list Z;
  pd_labels : list string
}.

(** One iteration of the [for day in rrule(...)] loop. *)
Definition projectDiffs_body (st : pd_state) (day : datetime) : pd_state :=
  let ts := pd_transactions st in
  let amnts := map (fun t => getAmountForDay t day) ts in
  let tSum := Py.sum amnts in
  let txts := map (fun t => getFormattedName t (Some day)) ts in
  let txts := List.filter (fun txt => negb (String.eqb txt "")) txts in
  {| pd_transactions := pd_transactions st;
     pd_diffs := pd_diffs st ++ [tSum];
     pd_labels := pd_labels st ++ [Py.join "," txts] |}.

Definition projectDiffs_run (transactions : list Transaction)
    (fromDate toDate : datetime) : pd_state :=
  fold_left projectDiffs_body (rrule_DAILY fromDate toDate)
    {| pd_transactions := transactions; pd_diffs := []; pd_labels := [] |}.

Definition projectDiffs (transactions : list Transaction)
    (fromDate toDate : datetime) : list Z * list string :=
  let st := projectDiffs_run transactions fromDate toDate in
  (pd_diffs st, pd_labels st).

(** The diff and the label of one day, as the loop body computes them. *)
Definition day_diff (ts : list Transaction) (day : datetime) : Z :=
  Py.sum (map (fun t => getAmountForDay t day) ts).

Definition day_label (ts : list Transaction) (day : datetime) : string :=
  Py.join ","
    (List.filter (fun txt => negb (String.eqb txt ""))
       (map (fun t => getFormattedName t (Some day)) ts)).

(** The number of daily steps [k >= 0] such that [start + k days] is not
    later than [until], in closed form. *)
Definition steps_until (start until : datetime) : nat :=
  if datetime_ltb until start then O
  else Z.to_nat (day_ordinal until - day_ordinal start
                 + (if usec_of_day until <? usec_of_day start then 0 else 1)).

(** The days [start], [start + 1 day], ... that are not later than [until]. *)
Definition days_until (start until : datetime) : list datetime :=
  map (fun k => add_days start (Z.of_nat k)) (seq 0 (steps_until start until)).

Definition test_t2 : Transaction :=
  mkTransaction (PyRRule (rrule_DAILY (ds 1) (ds 2))) 20 None.

(** Bounds with times of day: 18:00 on day0 to 09:00 four days later, and
    two instants half a second apart within one second of day0. *)
Definition evening0 : datetime := mkdatetime 734857 64800000000.
Definition morning4 : datetime := mkdatetime 734861 32400000000.
Definition instant_late : datetime := mkdatetime 734857 36000500000.
Definition instant_early : datetime := mkdatetime 734857 36000200000.

(** ** createBalanceGraph: the three plotted series *)

Open Scope Q_scope.

Record sim_state : Type := mk_sim_state {
  currentBalance : Q;
  currentSaveBalance : Q;
  balances : list Q;
  saveBalances : list Q
}.

(** One iteration of [for diff in diffs], over exact numbers. *)
Definition simulate_body (saveProportion : Q) (st : sim_state) (diff : Q)
    : sim_state :=
  let currentBalance := currentBalance st + diff in
  let balances := balances st ++ [currentBalance] in
  let currentSaveBalance :=
    currentSaveBalance st
    + (if Py.ltb diff 0 then diff else diff * (1 - saveProportion)) in
  let saveBalances := saveBalances st ++ [currentSaveBalance] in
  {| currentBalance := currentBalance;
     currentSaveBalance := currentSaveBalance;
     balances := balances;
     saveBalances := saveBalances |}.

Definition simulate (diffs : list Q) (startAmount saveProportion : Q)
    : sim_state :=
  fold_left (simulate_body saveProportion) diffs
    {| currentBalance := startAmount; currentSaveBalance := startAmount;
       balances := []; saveBalances := [] |}.

Record ll_state : Type := mk_ll_state {
  currentLowerLimit : Py.bound;
  lowerLimitBalances : list Q
}.

(** One iteration of [for i, balance in reversed(list(enumerate(...)))]. *)
Definition lowerLimit_body (st : ll_state) (ib : nat * Q) : ll_state :=
  let '(i, balance) := ib in
  let currentLowerLimit := Py.min balance (currentLowerLimit st) in
  {| currentLowerLimit := Py.Finite currentLowerLimit;
     lowerLimitBalances := currentLowerLimit :: lowerLimitBalances st |}.

Definition computeLowerLimit (saveBalances : list Q) : list Q :=
  lowerLimitBalances
    (fold_left lowerLimit_body (rev (Py.enumerate saveBalances))
       {| currentLowerLimit := Py.Inf; lowerLimitBalances := [] |}).

(** The [y] data of [trace0], [trace1] and [trace2]. *)
Definition createBalanceGraph (diffs : list Q) (startAmount saveProportion : Q)
    : list Q * list Q * list Q :=
  let st := simulate diffs startAmount saveProportion in
  (balances st, saveBalances st, computeLowerLimit (saveBalances st)).

(** ** Python numbers, floats included *)

Module Num.

(** A Python number: an exact one (an [int], or a [Fraction], by its
    rational value) or a [float]. *)
Inductive num : Type :=
| Exact (q : Q)
| Float (f : float).

(** The binary64 value nearest to a rational (ties to even), as Python's
    [float(x)] and its true division compute it. *)
Definition spec_of_Q (q : Q) : spec_float :=
  match Qnum q with
  | Z0 => S754_zero false
  | Zpos n =>
      SFdiv prec emax (S754_finite false n 0) (S754_finite false (Qden q) 0)
  | Zneg n =>
      SFdiv prec emax (S754_finite true n 0) (S754_finite false (Qden q) 0)
  end.

(** [float(x)] for an exact [x]; [None] is the [OverflowError] raised when
    [x] is beyond the range of floats. *)
Definition to_float (q : Q) : option float :=
  let f := SF2Prim (spec_of_Q q) in
  if is_infinity f then None else Some f.

(** The rational value of the finite float with sign [s], mantissa [m] and
    exponent [e]. *)
Definition finite_value (s : bool) (m : positive) (e : Z) : Q :=
  inject_Z (if s then Zneg m else Zpos m) * Qpower 2 e.

(** Comparison of an exact number with a float: exact, without rounding;
    [None] when the float is a NaN. *)
Definition compare_exact_float (x : Q) (g : float) : option comparison :=
  match Prim2SF g with
  | S754_nan => None
  | S754_infinity s => Some (if s then Gt else Lt)
  | S754_zero _ => Some (x ?= 0)
  | S754_finite s m e => Some (x ?= finite_value s m e)
  end.

Definition compare (a b : num) : option comparison :=
  match a, b with
  | Exact x, Exact y => Some (x ?= y)
  | Exact x, Float g => compare_exact_float x g
  | Float f, Exact y => option_map CompOpp (compare_exact_float y f)
  | Float f, Float g =>
      match PrimFloat.compare f g with
      | FEq => Some Eq
      | FLt => Some Lt
      | FGt => Some Gt
      | FNotComparable => None
      end
  end.

(** [a < b], [a <= b] and [a == b]. *)
Definition ltb (a b : num) : bool :=
  match compare a b with Some Lt => true | _ => false end.

Definition leb (a b : num) : bool :=
  match compare a b with Some Lt | Some Eq => true | _ => false end.

Definition eqb (a b : num) : bool :=
  match compare a b with Some Eq => true | _ => false end.

(** A binary operation: exact on two exact numbers; when one operand is a
    float the other is converted to a float first. *)
Definition arith (on_exact : Q -> Q -> Q) (on_float : float -> float -> float)
    (a b : num) : option num :=
  match a, b with
  | Exact x, Exact y => Some (Exact (on_exact x y))
  | Exact x, Float g =>
      match to_float x with
      | Some f => Some (Float (on_float f g))
      | None => None
      end
  | Float f, Exact y =>
      match to_float y with
      | Some g => Some (Float (on_float f g))
      | None => None
      end
  | Float f, Float g => Some (Float (on_float f g))
  end.

Definition add : num -> num -> option num := arith Qplus PrimFloat.add.
Definition sub : num -> num -> option num := arith Qminus PrimFloat.sub.
Definition mul : num -> num -> option num := arith Qmult PrimFloat.mul.

(** [min(a, b)]: [b] only when it is strictly smaller than [a]. *)
Definition min (a b : num) : num := if ltb b a then b else a.

End Num.

(** ** createBalanceGraph over Python numbers *)

Record num_state : Type := mk_num_state {
  num_currentBalance : Num.num;
  num_currentSaveBalance : Num.num;
  num_balances : list Num.num;
  num_saveBalances : list Num.num
}.

(** One iteration of [for diff in diffs]; [None] when an operation raises. *)
Definition simulate_body_num (saveProportion : Num.num) (st : num_state)
    (diff : Num.num) : option num_state :=
  match Num.add (num_currentBalance st) diff with
  | None => None
  | Some currentBalance =>
      let balances := num_balances st ++ [currentBalance] in
      let contribution :=
        if Num.ltb diff (Num.Exact 0) then Some diff
        else
          match Num.sub (Num.Exact 1) saveProportion with
          | Some k => Num.mul diff k
          | None => None
          end in
      match contribution with
      | None => None
      | Some c =>
          match Num.add (num_currentSaveBalance st) c with
          | None => None
          | Some currentSaveBalance =>
              Some {| num_currentBalance := currentBalance;
                      num_currentSaveBalance := currentSaveBalance;
                      num_balances := balances;
                      num_saveBalances :=
                        num_saveBalances st ++ [currentSaveBalance] |}
          end
      end
  end.

Fixpoint simulate_loop_num (saveProportion : Num.num) (diffs : list Num.num)
    (st : num_state) : option num_state :=
  match diffs with
  | [] => Some st
  | diff :: rest =>
      match simulate_body_num saveProportion st diff with
      | Some st' => simulate_loop_num saveProportion rest st'
      | None => None
      end
  end.

Definition simulate_num (diffs : list Num.num)
    (startAmount saveProportion : Num.num) : option num_state :=
  simulate_loop_num saveProportion diffs
    {| num_currentBalance := startAmount;
       num_currentSaveBalance := startAmount;
       num_balances := []; num_saveBalances := [] |}.

Record num_ll_state : Type := mk_num_ll_state {
  num_currentLowerLimit : Num.num;
  num_lowerLimitBalances : list Num.num
}.

Definition lowerLimit_body_num (st : num_ll_state) (ib : nat * Num.num)
    : num_ll_state :=
  let '(i, balance) := ib in
  let currentLowerLimit := Num.min balance (num_currentLowerLimit st) in
  {| num_currentLowerLimit := currentLowerLimit;
     num_lowerLimitBalances := currentLowerLimit :: num_lowerLimitBalances st |}.

Definition computeLowerLimit_num (saveBalances : list Num.num) : list Num.num :=
  num_lowerLimitBalances
    (fold_left lowerLimit_body_num (rev (Py.enumerate saveBalances))
       {| num_currentLowerLimit := Num.Float infinity;
          num_lowerLimitBalances := [] |}).

Definition createBalanceGraph_num (diffs : list Num.num)
    (startAmount saveProportion : Num.num)
    : option (list Num.num * list Num.num * list Num.num) :=
  match simulate_num diffs startAmount saveProportion with
  | Some st =>
      Some (num_balances st, num_saveBalances st,
            computeLowerLimit_num (num_saveBalances st))
  | None => None
  end.

(** The input on which rounding shows: one diff of [2^53 + 3], a start
    amount of [0] and the float save proportion [0.0]. *)
Definition big_diff : Q := 9007199254740995 # 1.

Definition rounding_run : option num_state :=
  simulate_num [Num.Exact big_diff] (Num.Exact 0) (Num.Float 0%float).

(** Exact series and states seen as Python numbers. *)
Definition exact_state (st : sim_state) : num_state :=
  {| num_currentBalance := Num.Exact (currentBalance st);
     num_currentSaveBalance := Num.Exact (currentSaveBalance st);
     num_balances := map Num.Exact (balances st);
     num_saveBalances := map Num.Exact (saveBalances st) |}.

Definition exact_bound (b : Py.bound) : Num.num :=
  match b with
  | Py.Inf => Num.Float infinity
  | Py.Finite q => Num.Exact q
  end.

Definition exact_ll_state (st : ll_state) : num_ll_state :=
  {| num_currentLowerLimit := exact_bound (currentLowerLimit st);
     num_lowerLimitBalances := map Num.Exact (lowerLimitBalances st) |}.

(** [a <= b] and [a == b] hold in Python. *)
Definition num_le (a b : Num.num) : Prop := Num.leb a b = true.
Definition num_eq (a b : Num.num) : Prop := Num.eqb a b = true.

Definition is_exact (a : Num.num) : Prop := exists q : Q, a = Num.Exact q.

Definition num_nondecreasing (l : list Num.num) : Prop :=
  forall (i : nat) (a b : Num.num),
    l !! i = Some a -> l !! S i = Some b -> num_le a b.

Definition num_nonincreasing (l : list Num.num) : Prop :=
  forall (i : nat) (a b : Num.num),
    l !! i = Some a -> l !! S i = Some b -> num_le b a.

(** [y == x + c] holds in Python, for an exact [c]. *)
Definition num_raised_by (c : Q) (x y : Num.num) : Prop :=
  exists z : Num.num, Num.add x (Num.Exact c) = Some z /\ num_eq y z.

(** ** Auxiliary definitions for the proofs *)

(** The running minimum that the walk holds once it has produced [l]. *)
Definition running_minimum (l : list Q) : Py.bound :=
  match l with
  | [] => Py.Inf
  | m :: _ => Py.Finite m
  end.

Definition ll_init : ll_state :=
  {| currentLowerLimit := Py.Inf; lowerLimitBalances := [] |}.

(** The backward walk, by recursion on the list it walks. *)
Fixpoint backward_walk (l : list Q) : ll_state :=
  match l with
  | [] => ll_init
  | x :: r => lowerLimit_body (backward_walk r) (O, x)
  end.

(** What one day adds to the savings-adjusted balance. *)
Definition save_contribution (saveProportion diff : Q) : Q :=
  if Py.ltb diff 0 then diff else diff * (1 - saveProportion).

(** The running totals of [cur + contrib d] along [diffs], by recursion on
    [diffs]. *)
Fixpoint accumulate (contrib : Q -> Q) (cur : Q) (diffs : list Q) : list Q :=
  match diffs with
  | [] => []
  | d :: r => (cur + contrib d) :: accumulate contrib (cur + contrib d) r
  end.

(** The entry before index [i] of a series, with [start] as the entry
    before index [0]. *)
Definition previous (start : Q) (series : list Q) (i : nat) : option Q :=
  match i with
  | O => Some start
  | S j => series !! j
  end.

(** ** createBalanceGraph: what is handed to the plot *)

(** [dayLabels]: one text per day of
    [rrule(DAILY, dtstart=fromDate, until=toDate)]; the formatting
    [dt.strftime("%a, %b %d")] of a day is a parameter. *)
Definition dayLabels (strftime : datetime -> string)
    (fromDate toDate : datetime) : list string :=
  map strftime (rrule_DAILY fromDate toDate).

(** The data of the three [go.Scatter] traces: the shared [x], and [y] and
    [text] of [trace0], [y] of [trace1] and [y] of [trace2]. *)
Record traces : Type := mk_traces {
  trace_x : list string;
  trace0_y : list Q;
  trace0_text : list string;
  trace1_y : list Q;
  trace2_y : list Q
}.

Definition createBalanceGraph_traces (strftime : datetime -> string)
    (diffs : list Q) (labels : list string) (fromDate toDate : datetime)
    (startAmount saveProportion : Q) : traces :=
  let '(balances, saveBalances, lowerLimitBalances) :=
    createBalanceGraph diffs startAmount saveProportion in
  {| trace_x := dayLabels strftime fromDate toDate;
     trace0_y := balances;
     trace0_text := labels;
     trace1_y := saveBalances;
     trace2_y := lowerLimitBalances |}.

(** ** main *)

(** [saveProportion = min(savePercentage/100, 1)] by its exact value;
    Python 3's true division rounds the quotient to a float.  Only the
    lengths of the series of [main_traces] are derived from it. *)
Definition main_saveProportion (savePercentage : Z) : Q :=
  Py.min (inject_Z savePercentage / (100 # 1)) (Py.Finite 1).

(** The work of [main] on the values its configuration block defines. *)
Definition main_traces (strftime : datetime -> string) (startAmount : Z)
    (fromDate toDate : datetime) (savePercentage : Z)
    (transactions : list Transaction) : traces :=
  let saveProportion := main_saveProportion savePercentage in
  let '(diffs, labels) := projectDiffs transactions fromDate toDate in
  createBalanceGraph_traces strftime (map inject_Z diffs) labels
    fromDate toDate (inject_Z startAmount) saveProportion.

(** ** Further auxiliary definitions *)

(** The transactions of [ts] that fire on [day], in order. *)
Definition firing (ts : list Transaction) (day : datetime) : list Transaction :=
  List.filter (fun t => doesTransactForDay t day) ts.

(** The sum of a list of numbers. *)
Definition Qsum (l : list Q) : Q := fold_right Qplus 0 l.

(** A series that never falls, and one that never rises, from one entry to
    the next. *)
Definition nondecreasing (l : list Q) : Prop :=
  forall (i : nat) (a b : Q), l !! i = Some a -> l !! S i = Some b -> a <= b.

Definition nonincreasing (l : list Q) : Prop :=
  forall (i : nat) (a b : Q), l !! i = Some a -> l !! S i = Some b -> b <= a.

(** [y] is [x] raised by [c]. *)
Definition raised_by (c x y : Q) : Prop := y == x + c.

(** The simulation of the concrete scenario: start 100, diffs -10, 50, -5,
    save proportion one half. *)
Definition scenario : list Q * list Q * list Q :=
  createBalanceGraph [-10 # 1; 50 # 1; -5 # 1] (100 # 1) (1 # 2).

Close Scope Q_scope.

(** * Properties *)

(** ** The lower limit is a suffix minimum *)

Section LowerLimit.
Local Open Scope Q_scope.

Lemma ltb_true (x y : Q) : Py.ltb x y = true <-> x < y.
Proof.
  unfold Py.ltb. rewrite negb_true_iff, <- not_true_iff_false, Qle_bool_iff.
  split; [apply Qnot_le_lt | apply Qlt_not_le].
Qed.

Lemma ltb_false (x y : Q) : Py.ltb x y = false <-> y <= x.
Proof.
  unfold Py.ltb. rewrite negb_false_iff. apply Qle_bool_iff.
Qed.

Lemma min_le_first (a : Q) (b : Py.bound) : Py.min a b <= a.
Proof.
  destruct b as [q|]; simpl; [|apply Qle_refl].
  destruct (Py.ltb q a) eqn:E; [|apply Qle_refl].
  apply ltb_true in E. now apply Qlt_le_weak.
Qed.

Lemma min_le_second (a q : Q) : Py.min a (Py.Finite q) <= q.
Proof.
  simpl. destruct (Py.ltb q a) eqn:E; [apply Qle_refl|].
  now apply ltb_false in E.
Qed.

Lemma min_cases (a : Q) (b : Py.bound) :
  Py.min a b = a \/ b = Py.Finite (Py.min a b).
Proof.
  destruct b as [q|]; simpl; [|now left].
  destruct (Py.ltb q a); [now right | now left].
Qed.

Lemma fold_enumerate_from (l : list Q) (k : nat) :
  fold_right (fun ib st => lowerLimit_body st ib) ll_init
    (combine (seq k (length l)) l) = backward_walk l.
Proof.
  revert k. induction l as [|x r IH]; intros k; simpl; [reflexivity|].
  now rewrite IH.
Qed.

Lemma fold_left_rev {A B : Type} (f : A -> B -> A) (l : list B) (a : A) :
  fold_left f (rev l) a = fold_right (fun x s => f s x) a l.
Proof.
  induction l as [|x r IH]; simpl; [reflexivity|].
  now rewrite fold_left_app, IH.
Qed.

Lemma computeLowerLimit_walk (l : list Q) :
  computeLowerLimit l = lowerLimitBalances (backward_walk l).
Proof.
  unfold computeLowerLimit, Py.enumerate.
  rewrite fold_left_rev. fold ll_init.
  now rewrite fold_enumerate_from.
Qed.

Lemma backward_walk_current (l : list Q) :
  currentLowerLimit (backward_walk l)
  = running_minimum (lowerLimitBalances (backward_walk l)).
Proof. destruct l; reflexivity. Qed.

Lemma computeLowerLimit_nil : computeLowerLimit [] = [].
Proof. reflexivity. Qed.

Lemma computeLowerLimit_cons (x : Q) (r : list Q) :
  computeLowerLimit (x :: r)
  = Py.min x (running_minimum (computeLowerLimit r)) :: computeLowerLimit r.
Proof.
  rewrite !computeLowerLimit_walk. simpl.
  now rewrite backward_walk_current.
Qed.

Lemma computeLowerLimit_length (l : list Q) :
  length (computeLowerLimit l) = length l.
Proof.
  induction l as [|x r IH]; [reflexivity|].
  rewrite computeLowerLimit_cons. simpl. now rewrite IH.
Qed.

Lemma computeLowerLimit_drop (l : list Q) (i : nat) :
  drop i (computeLowerLimit l) = computeLowerLimit (drop i l).
Proof.
  revert i. induction l as [|x r IH]; intros [|i]; try reflexivity.
  rewrite computeLowerLimit_cons. simpl. apply IH.
Qed.

(** The head of the result is a member of the input and a lower bound
    of all of it. *)
Lemma computeLowerLimit_head (l : list Q) (m : Q) (rest : list Q) :
  computeLowerLimit l = m :: rest ->
  m ∈ l /\ Forall (Qle m) l.
Proof.
  revert m rest. induction l as [|x r IH]; intros m rest H.
  - discriminate H.
  - rewrite computeLowerLimit_cons in H. injection H as Hm _.
    destruct (computeLowerLimit r) as [|m' rest'] eqn:E.
    + simpl in Hm. subst m. apply (f_equal length) in E.
      rewrite computeLowerLimit_length in E. destruct r; [|discriminate E].
      split; [left | constructor; [apply Qle_refl | constructor]].
    + change (running_minimum (m' :: rest')) with (Py.Finite m') in Hm.
      destruct (IH m' rest' eq_refl) as [Hin Hall].
      assert (Hle1 : m <= x) by (subst m; apply min_le_first).
      assert (Hle2 : m <= m') by (subst m; apply min_le_second).
      split.
      * destruct (min_cases x (Py.Finite m')) as [Hx|Hx];
          rewrite Hm in Hx.
        -- subst x. left.
        -- injection Hx as ->. now right.
      * constructor; [exact Hle1|].
        eapply Forall_impl; [exact Hall|].
        intros y Hy. simpl in Hy. eapply Qle_trans; eassumption.
Qed.

Lemma computeLowerLimit_lookup (l : list Q) (i : nat) (x : Q) :
  l !! i = Some x ->
  computeLowerLimit l !! i
  = Some (Py.min x (running_minimum (drop (S i) (computeLowerLimit l)))).
Proof.
  intros Hi.
  pose proof (computeLowerLimit_drop l i) as Hd.
  rewrite (drop_S l x i Hi), computeLowerLimit_cons in Hd.
  rewrite <- computeLowerLimit_drop in Hd.
  rewrite <- (Nat.add_0_r i) at 1. rewrite <- lookup_drop, Hd. reflexivity.
Qed.

(** C1.  The lower limit is the suffix minimum of the savings-adjusted
    balance: at every index [i] of [saveBalance], [lowerLimit[i]] exists, is
    [min(saveBalance[i], running minimum)] where the running minimum is the
    value recorded for index [i+1] (and [+infinity] past the end), is a
    member of [saveBalance[i..end]] and is below every member of it; the
    result has the length of the input and the empty input gives the empty
    output. *)
Theorem lowerLimit_suffix_minimum (saveBalance : list Q) (i : nat) (x : Q)
    (Hi : saveBalance !! i = Some x) :
  let lowerLimit := computeLowerLimit saveBalance in
  exists m : Q,
    lowerLimit !! i = Some m
    /\ m = Py.min x (running_minimum (drop (S i) lowerLimit))
    /\ m ∈ drop i saveBalance
    /\ Forall (Qle m) (drop i saveBalance)
    /\ length lowerLimit = length saveBalance
    /\ computeLowerLimit [] = [].
Proof.
  intros lowerLimit. subst lowerLimit.
  exists (Py.min x (running_minimum
                      (drop (S i) (computeLowerLimit saveBalance)))).
  split; [exact (computeLowerLimit_lookup _ _ _ Hi)|].
  split; [reflexivity|].
  rewrite (drop_S saveBalance x i Hi).
  assert (Hc : computeLowerLimit (x :: drop (S i) saveBalance)
               = Py.min x (running_minimum
                             (drop (S i) (computeLowerLimit saveBalance)))
                 :: computeLowerLimit (drop (S i) saveBalance)).
  { rewrite computeLowerLimit_cons. now rewrite <- computeLowerLimit_drop. }
  destruct (computeLowerLimit_head _ _ _ Hc) as [Hin Hall].
  repeat split; try assumption.
  - apply computeLowerLimit_length.
Qed.

Lemma lowerLimit_suffix_minimum_witness :
  exists m : Q,
    computeLowerLimit [3; 1; 2] !! 1%nat = Some m
    /\ m = Py.min 1 (running_minimum (drop 2 (computeLowerLimit [3; 1; 2])))
    /\ m ∈ drop 1 [3; 1; 2]
    /\ Forall (Qle m) (drop 1 [3; 1; 2])
    /\ length (computeLowerLimit [3; 1; 2]) = length [3; 1; 2]
    /\ computeLowerLimit [] = [].
Proof.
  exact (lowerLimit_suffix_minimum [3; 1; 2] 1 1 eq_refl).
Defined.

(** C4.  Invariants of the lower limit: it is non-decreasing in the index,
    it never exceeds the savings-adjusted balance of the same day, and its
    last entry is the last savings-adjusted balance. *)
Theorem lowerLimit_invariants (saveBalance : list Q) :
  let lowerLimit := computeLowerLimit saveBalance in
  (forall (i : nat) (a b : Q),
      lowerLimit !! i = Some a -> lowerLimit !! S i = Some b -> a <= b)
  /\ (forall (i : nat) (a s : Q),
      lowerLimit !! i = Some a -> saveBalance !! i = Some s -> a <= s)
  /\ (forall s : Q, last saveBalance = Some s -> last lowerLimit = Some s).
Proof.
  intros lowerLimit. subst lowerLimit. repeat split.
  - intros i a b Ha Hb.
    destruct (saveBalance !! i) as [x|] eqn:Hx.
    + rewrite (computeLowerLimit_lookup _ _ _ Hx) in Ha. injection Ha as <-.
      rewrite (drop_S _ _ _ Hb). apply min_le_second.
    + apply lookup_ge_None in Hx. apply lookup_lt_Some in Ha.
      rewrite computeLowerLimit_length in Ha. lia.
  - intros i a s Ha Hs.
    rewrite (computeLowerLimit_lookup _ _ _ Hs) in Ha. injection Ha as <-.
    apply min_le_first.
  - intros s Hs. rewrite last_lookup in Hs |- *.
    rewrite computeLowerLimit_length.
    rewrite (computeLowerLimit_lookup _ _ _ Hs).
    rewrite drop_ge; [reflexivity|].
    rewrite computeLowerLimit_length. lia.
Qed.

Lemma lowerLimit_invariants_witness :
  (forall (i : nat) (a b : Q),
      computeLowerLimit [3; 1; 2] !! i = Some a ->
      computeLowerLimit [3; 1; 2] !! S i = Some b -> a <= b)
  /\ (forall (i : nat) (a s : Q),
      computeLowerLimit [3; 1; 2] !! i = Some a ->
      [3; 1; 2] !! i = Some s -> a <= s)
  /\ (forall s : Q, last [3; 1; 2] = Some s ->
                    last (computeLowerLimit [3; 1; 2]) = Some s).
Proof.
  exact (lowerLimit_invariants [3; 1; 2]).
Defined.

End LowerLimit.


(** ** The forward simulation *)

Section Simulation.
Local Open Scope Q_scope.

Lemma simulate_fold (p : Q) (diffs : list Q) (st : sim_state) :
  let st' := fold_left (simulate_body p) diffs st in
  balances st' = balances st ++ accumulate (fun d => d) (currentBalance st) diffs
  /\ saveBalances st'
     = saveBalances st
       ++ accumulate (save_contribution p) (currentSaveBalance st) diffs.
Proof.
  revert st. induction diffs as [|d r IH]; intros st; simpl.
  - now rewrite !app_nil_r.
  - destruct (IH (simulate_body p st d)) as [Hb Hs].
    rewrite Hb, Hs. simpl. now rewrite <- !app_assoc.
Qed.

Lemma simulate_balances (diffs : list Q) (start p : Q) :
  balances (simulate diffs start p) = accumulate (fun d => d) start diffs.
Proof. apply (simulate_fold p diffs). Qed.

Lemma simulate_saveBalances (diffs : list Q) (start p : Q) :
  saveBalances (simulate diffs start p)
  = accumulate (save_contribution p) start diffs.
Proof. apply (simulate_fold p diffs). Qed.

Lemma accumulate_length (contrib : Q -> Q) (cur : Q) (diffs : list Q) :
  length (accumulate contrib cur diffs) = length diffs.
Proof.
  revert cur. induction diffs as [|d r IH]; intros cur; simpl; [reflexivity|].
  now rewrite IH.
Qed.

Lemma previous_cons (start x : Q) (l : list Q) (j : nat) :
  previous start (x :: l) (S j) = previous x l j.
Proof. destruct j; reflexivity. Qed.

Lemma accumulate_lookup (contrib : Q -> Q) (cur : Q) (diffs : list Q)
    (i : nat) (d : Q) :
  diffs !! i = Some d ->
  exists prev : Q,
    previous cur (accumulate contrib cur diffs) i = Some prev
    /\ accumulate contrib cur diffs !! i = Some (prev + contrib d).
Proof.
  revert cur i. induction diffs as [|d0 r IH]; intros cur i Hi.
  - discriminate Hi.
  - destruct i as [|j]; simpl in Hi.
    + injection Hi as ->. exists cur. now split.
    + destruct (IH (cur + contrib d0) j Hi) as (prev & Hp & Hl).
      exists prev. cbn [accumulate]. rewrite previous_cons. now split.
Qed.

(** C2.  The forward simulation follows its recurrences: on every day [i]
    with diff [d], [balance[i] = balance[i-1] + d] and [saveBalance[i]] is
    [saveBalance[i-1] + d] when [d < 0] and
    [saveBalance[i-1] + d * (1 - saveProportion)] otherwise, both with
    [startAmount] as the entry before day [0]; and the concrete scenario
    (start 100, diffs -10, 50, -5, save proportion 0.5) gives balance
    90, 140, 135, saveBalance 90, 115, 110 and lowerLimit 90, 110, 110. *)
Theorem simulation_recurrence (diffs : list Q) (startAmount saveProportion : Q)
    (i : nat) (d : Q) (Hi : diffs !! i = Some d) :
  let st := simulate diffs startAmount saveProportion in
  (exists b_prev : Q,
      previous startAmount (balances st) i = Some b_prev
      /\ balances st !! i = Some (b_prev + d))
  /\ (exists s_prev : Q,
      previous startAmount (saveBalances st) i = Some s_prev
      /\ (d < 0 -> saveBalances st !! i = Some (s_prev + d))
      /\ (~ d < 0 ->
          saveBalances st !! i = Some (s_prev + d * (1 - saveProportion))))
  /\ (let '(balance, saveBalance, lowerLimit) := scenario in
      Forall2 Qeq balance [90 # 1; 140 # 1; 135 # 1]
      /\ Forall2 Qeq saveBalance [90 # 1; 115 # 1; 110 # 1]
      /\ Forall2 Qeq lowerLimit [90 # 1; 110 # 1; 110 # 1]).
Proof.
  intros st. subst st.
  rewrite simulate_balances, simulate_saveBalances.
  split; [exact (accumulate_lookup (fun d => d) _ _ _ _ Hi)|].
  split.
  - destruct (accumulate_lookup (save_contribution saveProportion)
                startAmount _ _ _ Hi) as (s_prev & Hp & Hl).
    exists s_prev. split; [exact Hp|]. unfold save_contribution in Hl.
    split; intros Hd.
    + apply ltb_true in Hd. now rewrite Hd in Hl.
    + destruct (Py.ltb d 0) eqn:E; [|exact Hl].
      apply ltb_true in E. contradiction.
  - vm_compute. repeat split; repeat constructor.
Qed.

Lemma simulation_recurrence_witness :
  let st := simulate [-10 # 1; 50 # 1; -5 # 1] (100 # 1) (1 # 2) in
  (exists b_prev : Q,
      previous (100 # 1) (balances st) 1 = Some b_prev
      /\ balances st !! 1%nat = Some (b_prev + (50 # 1)))
  /\ (exists s_prev : Q,
      previous (100 # 1) (saveBalances st) 1 = Some s_prev
      /\ ((50 # 1) < 0 -> saveBalances st !! 1%nat = Some (s_prev + (50 # 1)))
      /\ (~ (50 # 1) < 0 ->
          saveBalances st !! 1%nat
          = Some (s_prev + (50 # 1) * (1 - (1 # 2)))))
  /\ (let '(balance, saveBalance, lowerLimit) := scenario in
      Forall2 Qeq balance [90 # 1; 140 # 1; 135 # 1]
      /\ Forall2 Qeq saveBalance [90 # 1; 115 # 1; 110 # 1]
      /\ Forall2 Qeq lowerLimit [90 # 1; 110 # 1; 110 # 1]).
Proof.
  exact (simulation_recurrence [-10 # 1; 50 # 1; -5 # 1] (100 # 1) (1 # 2)
           1 (50 # 1) eq_refl).
Defined.

Lemma save_contribution_zero (p d : Q) : p == 0 -> save_contribution p d == d.
Proof.
  intros Hp. unfold save_contribution.
  destruct (Py.ltb d 0); [reflexivity|]. rewrite Hp. ring.
Qed.

Lemma save_contribution_le (p d : Q) :
  0 <= p -> p <= 1 -> save_contribution p d <= d.
Proof.
  intros H0 H1. unfold save_contribution.
  destruct (Py.ltb d 0) eqn:E; [apply Qle_refl|].
  apply ltb_false in E.
  assert (H : 0 <= d * p) by (apply Qmult_le_0_compat; assumption).
  lra.
Qed.

Lemma accumulate_eq (p : Q) (diffs : list Q) (cs cb : Q) :
  p == 0 -> cs == cb ->
  Forall2 Qeq (accumulate (save_contribution p) cs diffs)
    (accumulate (fun d => d) cb diffs).
Proof.
  intros Hp. revert cs cb.
  induction diffs as [|d r IH]; intros cs cb Hc; simpl; constructor.
  - now rewrite Hc, (save_contribution_zero p d Hp).
  - apply IH. now rewrite Hc, (save_contribution_zero p d Hp).
Qed.

Lemma accumulate_le (p : Q) (diffs : list Q) (cs cb : Q) :
  0 <= p -> p <= 1 -> cs <= cb ->
  Forall2 Qle (accumulate (save_contribution p) cs diffs)
    (accumulate (fun d => d) cb diffs).
Proof.
  intros H0 H1. revert cs cb.
  induction diffs as [|d r IH]; intros cs cb Hc; simpl; constructor.
  - pose proof (save_contribution_le p d H0 H1). lra.
  - apply IH. pose proof (save_contribution_le p d H0 H1). lra.
Qed.

(** Over exact rationals a save proportion of zero withholds nothing. *)
Lemma zero_savings_roundtrip (diffs : list Q) (startAmount saveProportion : Q)
    (Hzero : saveProportion == 0) :
  let st := simulate diffs startAmount saveProportion in
  Forall2 Qeq (saveBalances st) (balances st).
Proof.
  intros st. subst st. rewrite simulate_balances, simulate_saveBalances.
  apply accumulate_eq; [exact Hzero | reflexivity].
Qed.

(** Over exact rationals, with a save proportion between 0 and 1 the
    savings-adjusted balance never exceeds the plain balance. *)
Lemma saveBalance_le_balance (diffs : list Q) (startAmount saveProportion : Q)
    (Hlo : 0 <= saveProportion) (Hhi : saveProportion <= 1) :
  let st := simulate diffs startAmount saveProportion in
  Forall2 Qle (saveBalances st) (balances st)
  /\ Forall (fun d => save_contribution saveProportion d <= d) diffs.
Proof.
  intros st. subst st. rewrite simulate_balances, simulate_saveBalances.
  split.
  - apply accumulate_le; [exact Hlo | exact Hhi | apply Qle_refl].
  - apply Forall_forall. intros d _. now apply save_contribution_le.
Qed.

End Simulation.


(** ** Transactions *)

Section Transactions.
Local Open Scope Z_scope.

Lemma date_in_spec (d : Z) (ds : list Z) : date_in d ds = true <-> In d ds.
Proof.
  unfold date_in. rewrite existsb_exists. split.
  - intros (e & He & Heq). apply Z.eqb_eq in Heq. now subst e.
  - intros Hd. exists d. split; [exact Hd | apply Z.eqb_refl].
Qed.

(** C5.  The amount for a day is the transaction's amount on a day it
    fires and 0 otherwise; it fires on day [d] exactly when [when] is a
    single datetime on the calendar date of [d], or a recurrence whose
    occurrences, taken as calendar dates, include the calendar date of [d]. *)
Theorem amount_and_firing (t : Transaction) (d : datetime) :
  getAmountForDay t d = (if doesTransactForDay t d then amount t else 0)
  /\ (doesTransactForDay t d = true <->
      (exists w : datetime, when t = PyDatetime w /\ date w = date d)
      \/ (exists r : list datetime,
            when t = PyRRule r /\ In (date d) (map date r))).
Proof.
  split; [reflexivity|].
  unfold doesTransactForDay. destruct (when t) as [|w|r|].
  - split; [discriminate | intros [(w & H & _)|(r & H & _)]; discriminate].
  - rewrite Z.eqb_eq. split.
    + intros H. left. now exists w.
    + intros [(w' & H & Hd)|(r & H & _)]; [now injection H as -> | discriminate].
  - rewrite date_in_spec. split.
    + intros H. right. now exists r.
    + intros [(w & H & _)|(r' & H & Hd)]; [discriminate | now injection H as ->].
  - split; [discriminate | intros [(w & H & _)|(r & H & _)]; discriminate].
Qed.

Lemma str_negative (z : Z) :
  z < 0 -> Py.slice_from_1 (Py.str z) = Py.str (Z.abs z).
Proof. destruct z as [|q|q]; intros H; try lia. reflexivity. Qed.

(** C6 as stated fails for a transaction whose name is the empty string:
    the name is set, yet no [": "] prefix is produced. *)
Lemma formattedName_empty_name :
  getFormattedName (mkTransaction (PyDatetime day0) 20 (Some EmptyString)) None
  = "$20"%string
  /\ described_formattedName name_present
       (mkTransaction (PyDatetime day0) 20 (Some EmptyString)) None
     = ": $20"%string.
Proof. split; reflexivity. Qed.

(** C6, amended.  [getFormattedName(day)] is empty when a day is given on
    which the transaction does not fire; otherwise it is the name and
    [": "] when the name is a non-empty string, then ["-$"] and the absolute
    value when the amount is negative, else ["$"] and the amount; so
    [Transaction(day0, 20)] gives ["$20"] and
    [Transaction(day0, -20, "Wowe")] gives ["Wowe: -$20"]. *)
Theorem formattedName_described (t : Transaction) (day : option datetime) :
  getFormattedName t day = described_formattedName Py.truthy t day
  /\ getFormattedName (mkTransaction (PyDatetime day0) 20 None) None
     = "$20"%string
  /\ getFormattedName
       (mkTransaction (PyDatetime day0) (-20) (Some "Wowe"%string)) None
     = "Wowe: -$20"%string.
Proof.
  split; [|split; reflexivity].
  assert (H : formattedName t = described_formattedName Py.truthy t None).
  { unfold formattedName, described_formattedName. simpl.
    destruct (name t) as [[|c n]|]; simpl;
      (destruct (amount t <? 0) eqn:E;
       [apply Z.ltb_lt in E; now rewrite (str_negative _ E) | reflexivity]). }
  destruct day as [d|]; [|exact H].
  unfold getFormattedName. rewrite H. unfold described_formattedName.
  destruct (doesTransactForDay t d); reflexivity.
Qed.

(** C7.  Construction raises exactly when [when] is [None], [amount] is
    [None], or [when] is neither a datetime nor a recurrence rule; when it
    succeeds the object holds the given [when], [amount] and [name]. *)
Theorem init_raises_iff (w : pyobj) (a : option Z) (n : option string) :
  ((exists e : exn, Transaction_init w a n = inl e) <->
   (w = PyNone \/ a = None
    \/ (isinstance_datetime w = false /\ isinstance_rrule w = false)))
  /\ (forall t : Transaction,
        Transaction_init w a n = inr t ->
        when t = w /\ Some (amount t) = a /\ name t = n)
  /\ (forall dt : datetime,
        Transaction_init (PyDatetime dt) (Some 0) n
        = inr (mkTransaction (PyDatetime dt) 0 n)).
Proof.
  split; [|split].
  - unfold Transaction_init. destruct a as [z|], w as [|dt|r|]; simpl; split;
      try (intros _; eauto; fail);
      try (intros [e He]; discriminate He);
      try (intros [H|[H|[H1 H2]]]; discriminate);
      try (intros _; right; right; now split).
  - unfold Transaction_init. intros t.
    destruct a as [z|], w as [|dt|r|]; simpl; intros H;
      try discriminate H; injection H as <-; now repeat split.
  - reflexivity.
Qed.

Lemma init_raises_iff_witness :
  ((exists e : exn, Transaction_init PyOther (Some 20) None = inl e) <->
   (PyOther = PyNone \/ Some 20 = @None Z
    \/ (isinstance_datetime PyOther = false
        /\ isinstance_rrule PyOther = false)))
  /\ (forall t : Transaction,
        Transaction_init PyOther (Some 20) None = inr t ->
        when t = PyOther /\ Some (amount t) = Some 20 /\ name t = None)
  /\ (forall dt : datetime,
        Transaction_init (PyDatetime dt) (Some 0) None
        = inr (mkTransaction (PyDatetime dt) 0 None)).
Proof.
  exact (init_raises_iff PyOther (Some 20) None).
Defined.

End Transactions.


(** ** The projection over a date range *)

Section Projection.
Local Open Scope Z_scope.

Lemma add_days_0 (dt : datetime) : add_days dt 0 = dt.
Proof. destruct dt as [d u]. unfold add_days. simpl. now rewrite Z.add_0_r. Qed.

Lemma add_days_add (dt : datetime) (a b : Z) :
  add_days (add_days dt a) b = add_days dt (a + b).
Proof. unfold add_days. simpl. now rewrite Z.add_assoc. Qed.

Lemma steps_until_later (cur until : datetime) :
  datetime_ltb until cur = true -> steps_until cur until = O.
Proof. intros H. unfold steps_until. now rewrite H. Qed.

Lemma steps_until_step (cur until : datetime) :
  datetime_ltb until cur = false ->
  steps_until cur until = S (steps_until (add_days cur 1) until).
Proof.
  unfold steps_until, datetime_ltb, add_days. simpl. intros H.
  rewrite H.
  destruct (usec_of_day until <? usec_of_day cur) eqn:Eu;
    destruct (day_ordinal until <? day_ordinal cur) eqn:E1;
    destruct (day_ordinal until =? day_ordinal cur) eqn:E2;
    destruct (day_ordinal until <? day_ordinal cur + 1) eqn:E3;
    destruct (day_ordinal until =? day_ordinal cur + 1) eqn:E4;
    simpl in *; try discriminate;
    rewrite ?Z.ltb_lt, ?Z.ltb_ge, ?Z.eqb_eq, ?Z.eqb_neq in *; lia.
Qed.

(** With enough fuel the generator stops because it has passed [until]. *)
Lemma daily_occurrences_enough (fuel : nat) (cur until : datetime) :
  day_ordinal until - day_ordinal cur + 1 <= Z.of_nat fuel ->
  daily_occurrences fuel cur until = days_until cur until.
Proof.
  revert cur. induction fuel as [|f IH]; intros cur Hf; simpl.
  - unfold days_until. rewrite steps_until_later; [reflexivity|].
    unfold datetime_ltb. apply orb_true_iff. left. apply Z.ltb_lt. lia.
  - destruct (datetime_ltb until cur) eqn:E.
    + unfold days_until. now rewrite steps_until_later.
    + rewrite IH by (unfold add_days; simpl; lia).
      unfold days_until. rewrite (steps_until_step _ _ E).
      cbn [seq map]. rewrite add_days_0. f_equal.
      rewrite <- seq_shift, map_map. apply map_ext. intros k.
      rewrite add_days_add. f_equal. lia.
Qed.

Lemma rrule_DAILY_days (dtstart until : datetime) :
  rrule_DAILY dtstart until = days_until (replace_microsecond_0 dtstart) until.
Proof.
  unfold rrule_DAILY. apply daily_occurrences_enough.
  unfold daily_fuel. lia.
Qed.

Lemma projectDiffs_fold (days : list datetime) (st : pd_state) :
  let st' := fold_left projectDiffs_body days st in
  pd_transactions st' = pd_transactions st
  /\ pd_diffs st' = pd_diffs st ++ map (day_diff (pd_transactions st)) days
  /\ pd_labels st'
     = pd_labels st ++ map (day_label (pd_transactions st)) days.
Proof.
  revert st. induction days as [|day r IH]; intros st; simpl.
  - now rewrite !app_nil_r.
  - destruct (IH (projectDiffs_body st day)) as (Ht & Hd & Hl).
    rewrite Ht, Hd, Hl. simpl. now rewrite <- !app_assoc.
Qed.

Lemma projectDiffs_closed (ts : list Transaction) (fromDate toDate : datetime) :
  projectDiffs ts fromDate toDate
  = (map (day_diff ts) (rrule_DAILY fromDate toDate),
     map (day_label ts) (rrule_DAILY fromDate toDate)).
Proof.
  unfold projectDiffs, projectDiffs_run.
  destruct (projectDiffs_fold (rrule_DAILY fromDate toDate)
              {| pd_transactions := ts; pd_diffs := []; pd_labels := [] |})
    as (_ & Hd & Hl).
  now rewrite Hd, Hl.
Qed.

Lemma days_until_length (start until : datetime) :
  length (days_until start until) = steps_until start until.
Proof. unfold days_until. now rewrite length_map, length_seq. Qed.

Lemma replace_microsecond_0_le (dt : datetime) :
  usec_of_day (replace_microsecond_0 dt) <= usec_of_day dt.
Proof. simpl. apply Z.mul_div_le. lia. Qed.

(** The assertions of the program's [test()] hold of the embedding. *)
Example test_assertions :
  doesTransactForDay test_t (ds 0) = true
  /\ getAmountForDay test_t (ds 0) = 20
  /\ getAmountForDay test_t (ds 1) = 0
  /\ map (doesTransactForDay test_t2) [ds 0; ds 1; ds 2; ds 3]
     = [false; true; true; false]
  /\ fst (projectDiffs [test_t; test_t2] (ds 0) (ds 4)) = [20; 20; 20; 0; 0]
  /\ getFormattedName test_t None = "$20"%string
  /\ getFormattedName test_t3 None = "Wowe: -$20"%string
  /\ getFormattedName test_t (Some (ds 0)) = "$20"%string
  /\ getFormattedName test_t (Some (ds 1)) = ""%string.
Proof. repeat split. Qed.

(** C3 as stated fails when the time of day of [fromDate] is later than
    that of [toDate]: from 18:00 to 09:00 four days later there are five
    calendar days but four entries; and for two instants within the same
    second, [fromDate] later than [toDate] still gives one entry. *)
Lemma projectDiffs_time_of_day :
  length (fst (projectDiffs [] evening0 morning4)) = 4%nat
  /\ length (snd (projectDiffs [] evening0 morning4)) = 4%nat
  /\ numberOfDaysInclusive evening0 morning4 = 5%nat
  /\ datetime_lt instant_early instant_late
  /\ length (fst (projectDiffs [] instant_late instant_early)) = 1%nat.
Proof. repeat split. Qed.

(** C3, amended.  [projectDiffs] returns one diff and one label for each
    daily step from [fromDate], its microseconds dropped, that is not later
    than [toDate], in ascending order.  Their common length is the number
    of calendar days from [fromDate] to [toDate] inclusive when the time of
    day of the start is not later than that of [toDate], and one less when
    it is later and [fromDate]'s calendar date is not after [toDate]'s.
    Both are empty when the start is later than [toDate], and both have
    exactly one element when [fromDate] equals [toDate]. *)
Theorem projectDiffs_length (transactions : list Transaction)
    (fromDate toDate : datetime) :
  let start := replace_microsecond_0 fromDate in
  let diffs := fst (projectDiffs transactions fromDate toDate) in
  let labels := snd (projectDiffs transactions fromDate toDate) in
  diffs = map (day_diff transactions) (days_until start toDate)
  /\ labels = map (day_label transactions) (days_until start toDate)
  /\ length diffs = steps_until start toDate
  /\ length labels = steps_until start toDate
  /\ (usec_of_day start <= usec_of_day toDate ->
      length diffs = numberOfDaysInclusive fromDate toDate)
  /\ (usec_of_day toDate < usec_of_day start ->
      date fromDate <= date toDate ->
      S (length diffs) = numberOfDaysInclusive fromDate toDate)
  /\ (datetime_lt toDate start -> diffs = [] /\ labels = [])
  /\ (fromDate = toDate -> length diffs = 1%nat /\ length labels = 1%nat).
Proof.
  intros start diffs labels. subst diffs labels.
  rewrite projectDiffs_closed, rrule_DAILY_days. fold start. cbn [fst snd].
  rewrite !length_map, !days_until_length.
  assert (Hcount : usec_of_day start <= usec_of_day toDate ->
                   steps_until start toDate
                   = numberOfDaysInclusive fromDate toDate).
  { intros Hu. unfold steps_until, numberOfDaysInclusive, datetime_ltb, date.
    change (day_ordinal start) with (day_ordinal fromDate).
    destruct (usec_of_day toDate <? usec_of_day start) eqn:Eu;
      [apply Z.ltb_lt in Eu; lia|].
    rewrite andb_false_r, orb_false_r.
    destruct (day_ordinal toDate <? day_ordinal fromDate) eqn:E1;
      [apply Z.ltb_lt in E1; lia | reflexivity]. }
  repeat split; try reflexivity.
  - exact Hcount.
  - intros Hu Hd. unfold steps_until, numberOfDaysInclusive, datetime_ltb, date in *.
    change (day_ordinal start) with (day_ordinal fromDate).
    apply Z.ltb_lt in Hu. rewrite Hu, andb_true_r.
    destruct (day_ordinal toDate <? day_ordinal fromDate) eqn:E1;
      destruct (day_ordinal toDate =? day_ordinal fromDate) eqn:E2;
      simpl; rewrite ?Z.ltb_lt, ?Z.ltb_ge, ?Z.eqb_eq, ?Z.eqb_neq in *; lia.
  - unfold days_until. now rewrite (steps_until_later _ _ H).
  - unfold days_until. now rewrite (steps_until_later _ _ H).
  - subst toDate. rewrite Hcount by apply replace_microsecond_0_le.
    unfold numberOfDaysInclusive. now rewrite Z.sub_diag.
  - subst toDate. rewrite Hcount by apply replace_microsecond_0_le.
    unfold numberOfDaysInclusive. now rewrite Z.sub_diag.
Qed.

Lemma projectDiffs_length_witness :
  let transactions := [mkTransaction (PyDatetime day0) 20 None] in
  let start := replace_microsecond_0 evening0 in
  let diffs := fst (projectDiffs transactions evening0 morning4) in
  let labels := snd (projectDiffs transactions evening0 morning4) in
  diffs = map (day_diff transactions) (days_until start morning4)
  /\ labels = map (day_label transactions) (days_until start morning4)
  /\ length diffs = steps_until start morning4
  /\ length labels = steps_until start morning4
  /\ (usec_of_day start <= usec_of_day morning4 ->
      length diffs = numberOfDaysInclusive evening0 morning4)
  /\ (usec_of_day morning4 < usec_of_day start ->
      date evening0 <= date morning4 ->
      S (length diffs) = numberOfDaysInclusive evening0 morning4)
  /\ (datetime_lt morning4 start -> diffs = [] /\ labels = [])
  /\ (evening0 = morning4 -> length diffs = 1%nat /\ length labels = 1%nat).
Proof.
  exact (projectDiffs_length [mkTransaction (PyDatetime day0) 20 None]
           evening0 morning4).
Defined.

End Projection.


(** ** What a day's diff and label are made of *)

Section DayContent.
Local Open Scope Z_scope.

Lemma append_empty (a b : string) :
  (a ++ b)%string = EmptyString -> a = EmptyString /\ b = EmptyString.
Proof. destruct a; simpl; intros H; [now split | discriminate H]. Qed.

Lemma formattedName_nonempty (t : Transaction) :
  String.eqb (formattedName t) "" = false.
Proof.
  apply String.eqb_neq. unfold formattedName. intros H.
  apply append_empty in H as [_ H]. apply append_empty in H as [_ H].
  discriminate H.
Qed.

Lemma sum_from (l : list Z) (a : Z) : fold_left Z.add l a = a + Py.sum l.
Proof.
  unfold Py.sum. revert a. induction l as [|x r IH]; intros a; simpl.
  - lia.
  - rewrite IH, (IH (0 + x)). lia.
Qed.

Lemma sum_cons (x : Z) (l : list Z) : Py.sum (x :: l) = x + Py.sum l.
Proof. unfold Py.sum at 1. simpl. now rewrite sum_from. Qed.

Lemma sum_app (l1 l2 : list Z) : Py.sum (l1 ++ l2) = Py.sum l1 + Py.sum l2.
Proof.
  induction l1 as [|x r IH]; [reflexivity|].
  simpl. rewrite !sum_cons, IH. lia.
Qed.

Lemma day_diff_firing (ts : list Transaction) (day : datetime) :
  day_diff ts day = Py.sum (map amount (firing ts day)).
Proof.
  unfold day_diff, firing. induction ts as [|t r IH]; [reflexivity|].
  simpl. rewrite sum_cons, IH. unfold getAmountForDay.
  destruct (doesTransactForDay t day); simpl; [now rewrite sum_cons | reflexivity].
Qed.

Lemma getFormattedName_day (t : Transaction) (day : datetime) :
  getFormattedName t (Some day)
  = if doesTransactForDay t day then formattedName t else EmptyString.
Proof. unfold getFormattedName. now destruct (doesTransactForDay t day). Qed.

Lemma day_label_firing (ts : list Transaction) (day : datetime) :
  day_label ts day = Py.join "," (map formattedName (firing ts day)).
Proof.
  unfold day_label, firing. f_equal.
  induction ts as [|t r IH]; [reflexivity|].
  cbn [map List.filter]. rewrite getFormattedName_day.
  destruct (doesTransactForDay t day).
  - rewrite formattedName_nonempty. cbn [negb map]. now rewrite IH.
  - cbn [String.eqb negb]. exact IH.
Qed.

(** X1.  The empty string marks an inactive day and nothing else: with a
    day, [getFormattedName] is empty exactly when the transaction does
    not fire on it, and without a day it is never empty. *)
Theorem formattedName_marks_inactive (t : Transaction) (d : datetime) :
  (getFormattedName t (Some d) = EmptyString
   <-> doesTransactForDay t d = false)
  /\ String.eqb (getFormattedName t None) "" = false.
Proof.
  split; [|apply formattedName_nonempty].
  simpl. destruct (doesTransactForDay t d); simpl; split;
    try reflexivity; try discriminate.
  intros H. pose proof (formattedName_nonempty t) as Hn.
  rewrite H in Hn. discriminate Hn.
Qed.

(** X2.  Each diff is the sum of the amounts of the transactions firing
    that day, and each label is the comma-joined texts of exactly those
    transactions, in the order of the list. *)
Theorem projectDiffs_by_firing (transactions : list Transaction)
    (fromDate toDate : datetime) :
  projectDiffs transactions fromDate toDate
  = (map (fun day => Py.sum (map amount (firing transactions day)))
       (rrule_DAILY fromDate toDate),
     map (fun day => Py.join "," (map formattedName (firing transactions day)))
       (rrule_DAILY fromDate toDate)).
Proof.
  rewrite projectDiffs_closed. f_equal; apply map_ext; intros day.
  - apply day_diff_firing.
  - apply day_label_firing.
Qed.

Lemma join_nonempty (x : string) (r : list string) :
  String.eqb x "" = false -> String.eqb (Py.join "," (x :: r)) "" = false.
Proof.
  intros Hx. apply String.eqb_neq. apply String.eqb_neq in Hx.
  unfold Py.join. destruct r as [|y r]; simpl; [exact Hx|].
  intros H. apply append_empty in H as [H _]. contradiction.
Qed.

Lemma day_label_empty (ts : list Transaction) (day : datetime) :
  day_label ts day = EmptyString <-> firing ts day = [].
Proof.
  rewrite day_label_firing. destruct (firing ts day) as [|t r]; split;
    try reflexivity; try discriminate.
  intros H. pose proof (join_nonempty (formattedName t) (map formattedName r)
                          (formattedName_nonempty t)) as Hn.
  cbn [map] in H. rewrite H in Hn. discriminate Hn.
Qed.

Lemma firing_nil (ts : list Transaction) (day : datetime) :
  firing ts day = [] <-> Forall (fun t => doesTransactForDay t day = false) ts.
Proof.
  unfold firing. induction ts as [|t r IH]; simpl.
  - split; [constructor | reflexivity].
  - destruct (doesTransactForDay t day) eqn:E; split.
    + discriminate.
    + intros H. inversion H; subst. congruence.
    + intros H. constructor; [exact E | now apply IH].
    + intros H. inversion H; subst. now apply IH.
Qed.

Lemma projectDiffs_lookup (ts : list Transaction) (fromDate toDate : datetime)
    (k : nat) (day : datetime) :
  rrule_DAILY fromDate toDate !! k = Some day ->
  fst (projectDiffs ts fromDate toDate) !! k = Some (day_diff ts day)
  /\ snd (projectDiffs ts fromDate toDate) !! k = Some (day_label ts day).
Proof.
  intros Hk. rewrite projectDiffs_closed. cbn [fst snd].
  rewrite !list_lookup_fmap, Hk. now split.
Qed.

(** X3.  The label of a day is empty exactly when no transaction fires on
    that day. *)
Theorem empty_label_iff_none_fires (transactions : list Transaction)
    (fromDate toDate : datetime) (k : nat) (day : datetime) (l : string)
    (Hday : rrule_DAILY fromDate toDate !! k = Some day)
    (Hl : snd (projectDiffs transactions fromDate toDate) !! k = Some l) :
  l = EmptyString
  <-> Forall (fun t => doesTransactForDay t day = false) transactions.
Proof.
  destruct (projectDiffs_lookup transactions _ _ _ _ Hday) as [_ H].
  rewrite H in Hl. injection Hl as <-.
  rewrite day_label_empty. apply firing_nil.
Qed.

Lemma empty_label_iff_none_fires_witness :
  EmptyString = EmptyString
  <-> Forall (fun t => doesTransactForDay t (ds 1) = false) [test_t].
Proof.
  exact (empty_label_iff_none_fires [test_t] (ds 0) (ds 4) 1 (ds 1) ""
           eq_refl eq_refl).
Defined.

(** X4.  A day whose diff is not zero has a non-empty label. *)
Theorem nonzero_diff_has_label (transactions : list Transaction)
    (fromDate toDate : datetime) (k : nat) (d : Z) (l : string)
    (Hd : fst (projectDiffs transactions fromDate toDate) !! k = Some d)
    (Hl : snd (projectDiffs transactions fromDate toDate) !! k = Some l)
    (Hnz : d <> 0) :
  String.eqb l "" = false.
Proof.
  destruct (rrule_DAILY fromDate toDate !! k) as [day|] eqn:Hday.
  - destruct (projectDiffs_lookup transactions _ _ _ _ Hday) as [H1 H2].
    rewrite H1 in Hd. rewrite H2 in Hl. injection Hd as <-. injection Hl as <-.
    apply String.eqb_neq. intros He. apply day_label_empty in He.
    apply Hnz. rewrite day_diff_firing, He. reflexivity.
  - rewrite projectDiffs_closed in Hd. cbn [fst] in Hd.
    rewrite list_lookup_fmap, Hday in Hd. discriminate Hd.
Qed.

Lemma nonzero_diff_has_label_witness : String.eqb "$20" "" = false.
Proof.
  apply (nonzero_diff_has_label [test_t] (ds 0) (ds 4) 0 20 "$20");
    [reflexivity | reflexivity | discriminate].
Defined.

Lemma map_const_replicate {A B : Type} (c : B) (l : list A) :
  map (fun _ => c) l = replicate (length l) c.
Proof. induction l as [|x r IH]; simpl; [reflexivity | now rewrite IH]. Qed.

(** X5.  Without transactions every projected day has diff [0] and the
    empty label. *)
Theorem projectDiffs_no_transactions (fromDate toDate : datetime) :
  let count := steps_until (replace_microsecond_0 fromDate) toDate in
  projectDiffs [] fromDate toDate
  = (replicate count 0, replicate count EmptyString).
Proof.
  intros count. rewrite projectDiffs_closed, rrule_DAILY_days.
  unfold day_diff, day_label. cbn [map List.filter Py.sum Py.join fold_left].
  rewrite (map_const_replicate 0), (map_const_replicate (String.concat "," [])).
  now rewrite days_until_length.
Qed.

Lemma day_diff_app (ts1 ts2 : list Transaction) (day : datetime) :
  day_diff (ts1 ++ ts2) day = day_diff ts1 day + day_diff ts2 day.
Proof. unfold day_diff. now rewrite map_app, sum_app. Qed.

Lemma zip_with_map {A : Type} (f g : A -> Z) (l : list A) :
  zip_with Z.add (map f l) (map g l) = map (fun x => f x + g x) l.
Proof. induction l as [|x r IH]; simpl; [reflexivity | now rewrite IH]. Qed.

(** X6.  For transactions with integer amounts, the diffs of two
    transaction lists put together are the day by day sums of the diffs of
    each list. *)
Theorem projectDiffs_app (ts1 ts2 : list Transaction)
    (fromDate toDate : datetime) :
  fst (projectDiffs (ts1 ++ ts2) fromDate toDate)
  = zip_with Z.add (fst (projectDiffs ts1 fromDate toDate))
      (fst (projectDiffs ts2 fromDate toDate)).
Proof.
  rewrite !projectDiffs_closed. cbn [fst]. rewrite zip_with_map.
  apply map_ext. intros day. apply day_diff_app.
Qed.

Lemma day_diff_perm (ts1 ts2 : list Transaction) (day : datetime) :
  Permutation ts1 ts2 -> day_diff ts1 day = day_diff ts2 day.
Proof.
  unfold day_diff. induction 1 as [|t l l' _ IH|t u l|l l' l'' _ IH1 _ IH2];
    cbn [map]; rewrite ?sum_cons.
  - reflexivity.
  - now rewrite IH.
  - lia.
  - now rewrite IH1.
Qed.

(** X7.  For transactions with integer amounts, the diffs do not depend
    on the order of the transactions. *)
Theorem projectDiffs_order (ts1 ts2 : list Transaction)
    (fromDate toDate : datetime) (Hperm : Permutation ts1 ts2) :
  fst (projectDiffs ts1 fromDate toDate)
  = fst (projectDiffs ts2 fromDate toDate).
Proof.
  rewrite !projectDiffs_closed. cbn [fst].
  apply map_ext. intros day. now apply day_diff_perm.
Qed.

Lemma projectDiffs_order_witness :
  fst (projectDiffs [test_t; test_t2] (ds 0) (ds 4))
  = fst (projectDiffs [test_t2; test_t] (ds 0) (ds 4)).
Proof.
  apply (projectDiffs_order [test_t; test_t2] [test_t2; test_t]).
  apply perm_swap.
Defined.

Lemma indicator_sum (w b m : Z) (s n : nat) :
  Py.sum (map (fun k => if w =? b + Z.of_nat k then m else 0) (seq s n))
  = if (b + Z.of_nat s <=? w) && (w <? b + Z.of_nat s + Z.of_nat n)
    then m else 0.
Proof.
  revert s. induction n as [|n IH]; intros s.
  - cbn [seq map]. destruct (b + Z.of_nat s <=? w) eqn:E1;
      destruct (w <? b + Z.of_nat s + Z.of_nat 0) eqn:E2; try reflexivity.
    apply Z.leb_le in E1. apply Z.ltb_lt in E2. lia.
  - cbn [seq map]. rewrite sum_cons, IH.
    destruct (w =? b + Z.of_nat s) eqn:E0;
      destruct (b + Z.of_nat (S s) <=? w) eqn:E1;
      destruct (w <? b + Z.of_nat (S s) + Z.of_nat n) eqn:E2;
      destruct (b + Z.of_nat s <=? w) eqn:E3;
      destruct (w <? b + Z.of_nat s + Z.of_nat (S n)) eqn:E4;
      cbn [andb];
      rewrite ?Z.eqb_eq, ?Z.eqb_neq, ?Z.leb_le, ?Z.leb_gt, ?Z.ltb_lt, ?Z.ltb_ge
        in *; lia.
Qed.

Lemma single_date_diffs (w : datetime) (m : Z) (n : option string)
    (fromDate toDate : datetime) :
  fst (projectDiffs [mkTransaction (PyDatetime w) m n] fromDate toDate)
  = map (fun k => if date w =? date fromDate + Z.of_nat k then m else 0)
      (seq 0 (steps_until (replace_microsecond_0 fromDate) toDate)).
Proof.
  rewrite projectDiffs_closed, rrule_DAILY_days. cbn [fst].
  unfold days_until. rewrite map_map. apply map_ext. intros k.
  unfold day_diff. cbn [map]. rewrite sum_cons.
  unfold getAmountForDay, doesTransactForDay. cbn [when amount].
  unfold date, add_days, replace_microsecond_0. cbn [day_ordinal].
  change (Py.sum []) with 0.
  destruct (day_ordinal w =? day_ordinal fromDate + Z.of_nat k); lia.
Qed.

(** X8.  A transaction on a single date is counted on the day of the range
    that has its calendar date and on no other: the diff of day [i] is its
    amount when that day's calendar date is the transaction's and [0]
    otherwise, so the diffs add up to the amount when the date lies in the
    projected range and to [0] when it does not. *)
Theorem single_date_counted_once (w : datetime) (m : Z) (n : option string)
    (fromDate toDate : datetime) :
  let diffs :=
    fst (projectDiffs [mkTransaction (PyDatetime w) m n] fromDate toDate) in
  let count := steps_until (replace_microsecond_0 fromDate) toDate in
  (forall (i : nat) (d : Z),
      diffs !! i = Some d ->
      d = if date w =? date fromDate + Z.of_nat i then m else 0)
  /\ Py.sum diffs
     = (if (date fromDate <=? date w)
           && (date w <? date fromDate + Z.of_nat count)
        then m else 0).
Proof.
  intros diffs count. subst diffs count. rewrite single_date_diffs. split.
  - intros i d Hi. rewrite list_lookup_fmap in Hi.
    destruct (seq 0 _ !! i) as [k|] eqn:Hk; [|discriminate Hi].
    apply lookup_seq in Hk as [-> _]. now injection Hi as <-.
  - rewrite indicator_sum. now rewrite !Z.add_0_r.
Qed.

Lemma single_date_counted_once_witness :
  let diffs := fst (projectDiffs [test_t] (ds 0) (ds 4)) in
  let count := steps_until (replace_microsecond_0 (ds 0)) (ds 4) in
  (forall (i : nat) (d : Z),
      diffs !! i = Some d ->
      d = if date (ds 0) =? date (ds 0) + Z.of_nat i then 20 else 0)
  /\ Py.sum diffs
     = (if (date (ds 0) <=? date (ds 0))
           && (date (ds 0) <? date (ds 0) + Z.of_nat count)
        then 20 else 0).
Proof.
  exact (single_date_counted_once (ds 0) 20 None (ds 0) (ds 4)).
Defined.

(** X9.  A transaction on the rule [rrule(DAILY, dtstart=a, until=b)]
    fires on a day exactly when the day's calendar date is one of the
    rule's consecutive dates, from the date of [a] on; it fires neither
    the day before [a] nor after the rule's last occurrence. *)
Theorem daily_rule_fires_in_range (a b d : datetime) (m : Z)
    (n : option string) :
  doesTransactForDay (mkTransaction (PyRRule (rrule_DAILY a b)) m n) d = true
  <-> date a <= date d
      < date a + Z.of_nat (steps_until (replace_microsecond_0 a) b).
Proof.
  unfold doesTransactForDay. cbn [when].
  rewrite date_in_spec, rrule_DAILY_days. unfold days_until.
  rewrite map_map, in_map_iff. split.
  - intros (k & Hk & Hin). apply in_seq in Hin.
    unfold date, add_days in *. simpl in *. lia.
  - intros H. exists (Z.to_nat (date d - date a)). split.
    + unfold date, add_days in *. simpl in *. lia.
    + apply in_seq. unfold date in *. lia.
Qed.

End DayContent.

(** ** Further properties of the lower limit *)

Section LowerLimitMore.
Local Open Scope Q_scope.

Lemma nondecreasing_tail (x : Q) (r : list Q) :
  nondecreasing (x :: r) -> nondecreasing r.
Proof. intros H i a b Ha Hb. exact (H (S i) a b Ha Hb). Qed.

Lemma nonincreasing_tail (x : Q) (r : list Q) :
  nonincreasing (x :: r) -> nonincreasing r.
Proof. intros H i a b Ha Hb. exact (H (S i) a b Ha Hb). Qed.

Lemma computeLowerLimit_nondecreasing (l : list Q) :
  nondecreasing (computeLowerLimit l).
Proof.
  intros i a b Ha Hb.
  destruct (l !! i) as [x|] eqn:Hx.
  - rewrite (computeLowerLimit_lookup _ _ _ Hx) in Ha. injection Ha as <-.
    rewrite (drop_S _ _ _ Hb). apply min_le_second.
  - apply lookup_ge_None in Hx. apply lookup_lt_Some in Ha.
    rewrite computeLowerLimit_length in Ha. lia.
Qed.

Lemma computeLowerLimit_below (l : list Q) :
  Forall2 Qle (computeLowerLimit l) l.
Proof.
  induction l as [|x r IH]; [constructor|].
  rewrite computeLowerLimit_cons. constructor; [apply min_le_first | exact IH].
Qed.

Lemma computeLowerLimit_fixed (l : list Q) :
  nondecreasing l -> computeLowerLimit l = l.
Proof.
  intros Hmono. induction l as [|x r IH]; [reflexivity|].
  rewrite computeLowerLimit_cons, (IH (nondecreasing_tail _ _ Hmono)).
  f_equal. destruct r as [|y r']; [reflexivity|].
  cbn [running_minimum Py.min].
  assert (Hxy : x <= y) by exact (Hmono O x y eq_refl eq_refl).
  destruct (Py.ltb y x) eqn:E; [|reflexivity].
  apply ltb_true in E. lra.
Qed.

(** X10.  A series is its own lower limit exactly when it never falls
    from one day to the next. *)
Theorem lowerLimit_fixed_iff (saveBalance : list Q) :
  computeLowerLimit saveBalance = saveBalance <-> nondecreasing saveBalance.
Proof.
  split.
  - intros H. rewrite <- H. apply computeLowerLimit_nondecreasing.
  - apply computeLowerLimit_fixed.
Qed.

(** X11.  Taking the lower limit twice changes nothing more. *)
Theorem lowerLimit_idempotent (saveBalance : list Q) :
  computeLowerLimit (computeLowerLimit saveBalance)
  = computeLowerLimit saveBalance.
Proof.
  apply computeLowerLimit_fixed, computeLowerLimit_nondecreasing.
Qed.

(** X12.  The lower limit is the greatest series that never falls and
    stays below the savings-adjusted balance: any such series is below the
    lower limit on every day. *)
Theorem lowerLimit_greatest (saveBalance g : list Q)
    (Hmono : nondecreasing g) (Hbelow : Forall2 Qle g saveBalance) :
  Forall2 Qle g (computeLowerLimit saveBalance).
Proof.
  induction Hbelow as [|a x g' r Hax Hrest IH]; [constructor|].
  specialize (IH (nondecreasing_tail _ _ Hmono)).
  rewrite computeLowerLimit_cons. constructor; [|exact IH].
  destruct IH as [|b m g'' ll Hbm _]; cbn [running_minimum Py.min].
  - exact Hax.
  - assert (Hab : a <= b) by exact (Hmono O a b eq_refl eq_refl).
    destruct (Py.ltb m x); lra.
Qed.

Lemma lowerLimit_greatest_witness :
  Forall2 Qle [0; 1; 1] (computeLowerLimit [3; 1; 2]).
Proof.
  apply (lowerLimit_greatest [3; 1; 2] [0; 1; 1]).
  - intros [|[|[|i]]] a b Ha Hb; simpl in Ha, Hb;
      try discriminate; injection Ha as <-; injection Hb as <-; discriminate.
  - repeat constructor; discriminate.
Defined.

Lemma computeLowerLimit_mono (s1 s2 : list Q) :
  Forall2 Qle s1 s2 ->
  Forall2 Qle (computeLowerLimit s1) (computeLowerLimit s2).
Proof.
  intros Hle.
  induction Hle as [|x1 x2 r1 r2 Hx Hrest IH]; [constructor|].
  rewrite !computeLowerLimit_cons. constructor; [|exact IH].
  destruct IH as [|m1 m2 l1 l2 Hm _]; cbn [running_minimum].
  - exact Hx.
  - pose proof (min_le_first x1 (Py.Finite m1)) as H1.
    pose proof (min_le_second x1 m1) as H2.
    cbn [Py.min] in *. destruct (Py.ltb m2 x2); lra.
Qed.

(** X13.  The lower limit is monotone in its input: a series that is
    lower on every day has a lower limit that is lower on every day, and
    both lower limits keep the length of their series. *)
Theorem lowerLimit_monotone (s1 s2 : list Q) (Hle : Forall2 Qle s1 s2) :
  Forall2 Qle (computeLowerLimit s1) (computeLowerLimit s2)
  /\ length (computeLowerLimit s1) = length (computeLowerLimit s2).
Proof.
  split; [now apply computeLowerLimit_mono|].
  rewrite !computeLowerLimit_length. exact (Forall2_length _ _ _ Hle).
Qed.

Lemma lowerLimit_monotone_witness :
  Forall2 Qle (computeLowerLimit [2; 0; 1]) (computeLowerLimit [3; 1; 2])
  /\ length (computeLowerLimit [2; 0; 1]) = length (computeLowerLimit [3; 1; 2]).
Proof.
  apply (lowerLimit_monotone [2; 0; 1] [3; 1; 2]).
  repeat constructor; discriminate.
Defined.

Lemma nonincreasing_last (x f : Q) (r : list Q) :
  nonincreasing (x :: r) -> last (x :: r) = Some f -> f <= x.
Proof.
  revert x. induction r as [|y r IH]; intros x Hmono Hlast.
  - injection Hlast as <-. apply Qle_refl.
  - assert (Hyx : y <= x) by exact (Hmono O x y eq_refl eq_refl).
    specialize (IH y (nonincreasing_tail _ _ Hmono) Hlast). lra.
Qed.

Lemma computeLowerLimit_flat (l : list Q) (f m : Q) :
  nonincreasing l -> last l = Some f -> In m (computeLowerLimit l) -> m == f.
Proof.
  intros Hmono Hlast. revert m. induction l as [|x r IH]; intros m Hin.
  - destruct Hin.
  - rewrite computeLowerLimit_cons in Hin.
    destruct r as [|y r'].
    + injection Hlast as <-. destruct Hin as [<-|[]]. reflexivity.
    + specialize (IH (nonincreasing_tail _ _ Hmono) Hlast).
      destruct Hin as [<-|Hin]; [|now apply IH].
      pose proof (nonincreasing_last _ _ _ Hmono Hlast) as Hfx.
      destruct (computeLowerLimit (y :: r')) as [|m' rest] eqn:E.
      * apply (f_equal length) in E. rewrite computeLowerLimit_length in E.
        discriminate E.
      * specialize (IH m' (or_introl eq_refl)).
        cbn [running_minimum Py.min].
        destruct (Py.ltb m' x) eqn:E'; [exact IH|].
        apply ltb_false in E'. lra.
Qed.

End LowerLimitMore.

(** ** Further properties of the simulation *)

Section SimulationMore.
Local Open Scope Q_scope.

Lemma accumulate_sum (cur : Q) (diffs : list Q) (i : nat) (b : Q) :
  accumulate (fun d => d) cur diffs !! i = Some b ->
  b == cur + Qsum (take (S i) diffs).
Proof.
  revert cur i. induction diffs as [|d r IH]; intros cur i Hi.
  - discriminate Hi.
  - destruct i as [|j]; cbn [accumulate] in Hi.
    + injection Hi as <-. destruct r; simpl; ring.
    + apply IH in Hi. rewrite Hi.
      change (take (S (S j)) (d :: r)) with (d :: take (S j) r).
      simpl. ring.
Qed.

(** Over exact rationals.  The balance of a day is the start amount plus the diffs up to
    and including that day; the last balance is the start amount plus all
    diffs. *)
Lemma balance_is_running_sum (diffs : list Q) (startAmount saveProportion : Q)
    (i : nat) (b : Q)
    (Hb : balances (simulate diffs startAmount saveProportion) !! i = Some b) :
  b == startAmount + Qsum (take (S i) diffs)
  /\ (S i = length diffs -> b == startAmount + Qsum diffs).
Proof.
  rewrite simulate_balances in Hb. apply accumulate_sum in Hb.
  split; [exact Hb|]. intros Hlen.
  rewrite Hlen, firstn_all in Hb. exact Hb.
Qed.


Lemma Forall2_Qle_trans (l1 l2 l3 : list Q) :
  Forall2 Qle l1 l2 -> Forall2 Qle l2 l3 -> Forall2 Qle l1 l3.
Proof.
  intros H. revert l3. induction H as [|a b r1 r2 Hab _ IH]; intros l3 H23.
  - inversion H23. constructor.
  - inversion H23 as [|b' c r2' r3 Hbc Hrest]; subst.
    constructor; [lra | now apply IH].
Qed.

(** Over exact rationals.  With a save proportion between 0 and 1 the lower limit never
    exceeds the plain balance of the same day. *)
Lemma lowerLimit_le_balance (diffs : list Q) (startAmount saveProportion : Q)
    (Hlo : 0 <= saveProportion) (Hhi : saveProportion <= 1) :
  let '(balance, saveBalance, lowerLimit) :=
    createBalanceGraph diffs startAmount saveProportion in
  Forall2 Qle lowerLimit balance.
Proof.
  unfold createBalanceGraph.
  rewrite simulate_balances, simulate_saveBalances.
  eapply Forall2_Qle_trans; [apply computeLowerLimit_below|].
  apply accumulate_le; [exact Hlo | exact Hhi | apply Qle_refl].
Qed.


Lemma accumulate_rising (contrib : Q -> Q) (cur : Q) (diffs : list Q) :
  Forall (fun d => 0 <= contrib d) diffs ->
  nondecreasing (accumulate contrib cur diffs).
Proof.
  intros H. revert cur. induction H as [|d r Hd Hr IH]; intros cur i a b Ha Hb.
  - discriminate Ha.
  - destruct i as [|j]; cbn [accumulate] in Ha, Hb.
    + injection Ha as <-. destruct r as [|d' r']; [discriminate Hb|].
      inversion Hr; subst. cbn [accumulate] in Hb. injection Hb as <-. lra.
    + exact (IH _ j a b Ha Hb).
Qed.

Lemma accumulate_falling (contrib : Q -> Q) (cur : Q) (diffs : list Q) :
  Forall (fun d => contrib d <= 0) diffs ->
  nonincreasing (accumulate contrib cur diffs)
  /\ Forall (fun s => s <= cur) (accumulate contrib cur diffs).
Proof.
  intros H. revert cur. induction H as [|d r Hd Hr IH]; intros cur.
  - split; [intros i a b Ha; discriminate Ha | constructor].
  - destruct (IH (cur + contrib d)) as [Hmono Hall]. split.
    + intros i a b Ha Hb. destruct i as [|j]; cbn [accumulate] in Ha, Hb.
      * injection Ha as <-. destruct r as [|d' r']; [discriminate Hb|].
        inversion Hr; subst. cbn [accumulate] in Hb. injection Hb as <-. lra.
      * exact (Hmono j a b Ha Hb).
    + cbn [accumulate]. constructor; [lra|].
      eapply Forall_impl; [exact Hall|]. intros s Hs. simpl in Hs. lra.
Qed.

(** Over exact rationals.  When no day has a negative diff and the save proportion is at
    most 1, the savings-adjusted balance never falls and the lower limit
    is the savings-adjusted balance itself. *)
Lemma no_charges_lowerLimit (diffs : list Q) (startAmount saveProportion : Q)
    (Hpos : Forall (fun d => 0 <= d) diffs) (Hhi : saveProportion <= 1) :
  let '(balance, saveBalance, lowerLimit) :=
    createBalanceGraph diffs startAmount saveProportion in
  nondecreasing saveBalance /\ lowerLimit = saveBalance.
Proof.
  unfold createBalanceGraph. rewrite simulate_saveBalances.
  assert (H : nondecreasing
                (accumulate (save_contribution saveProportion) startAmount diffs)).
  { apply accumulate_rising. eapply Forall_impl; [exact Hpos|].
    intros d Hd. simpl in Hd. unfold save_contribution.
    destruct (Py.ltb d 0); [exact Hd|].
    apply Qmult_le_0_compat; lra. }
  split; [exact H | now apply computeLowerLimit_fixed].
Qed.


Lemma accumulate_pointwise_eq (f g : Q -> Q) (diffs : list Q) (cs cb : Q) :
  Forall (fun d => f d == g d) diffs -> cs == cb ->
  Forall2 Qeq (accumulate f cs diffs) (accumulate g cb diffs).
Proof.
  intros H. revert cs cb.
  induction H as [|d r Hd _ IH]; intros cs cb Hc; cbn [accumulate];
    constructor.
  - now rewrite Hc, Hd.
  - apply IH. now rewrite Hc, Hd.
Qed.

Lemma accumulate_pointwise_le (f g : Q -> Q) (diffs : list Q) (cs cb : Q) :
  Forall (fun d => f d <= g d) diffs -> cs <= cb ->
  Forall2 Qle (accumulate f cs diffs) (accumulate g cb diffs).
Proof.
  intros H. revert cs cb.
  induction H as [|d r Hd _ IH]; intros cs cb Hc; cbn [accumulate];
    constructor.
  - lra.
  - apply IH. lra.
Qed.

(** Over exact rationals.  When no day has a positive diff, the save proportion has no
    effect: the savings-adjusted balance equals the plain balance. *)
Lemma only_charges_no_savings (diffs : list Q) (startAmount saveProportion : Q)
    (Hneg : Forall (fun d => d <= 0) diffs) :
  let st := simulate diffs startAmount saveProportion in
  Forall2 Qeq (saveBalances st) (balances st).
Proof.
  intros st. subst st. rewrite simulate_balances, simulate_saveBalances.
  apply accumulate_pointwise_eq; [|reflexivity].
  eapply Forall_impl; [exact Hneg|]. intros d Hd. simpl in Hd.
  unfold save_contribution. destruct (Py.ltb d 0) eqn:E; [reflexivity|].
  apply ltb_false in E. assert (H0 : d == 0) by lra. rewrite H0. ring.
Qed.


Lemma save_contribution_antitone (p1 p2 d : Q) :
  p1 <= p2 -> save_contribution p2 d <= save_contribution p1 d.
Proof.
  intros Hp. unfold save_contribution.
  destruct (Py.ltb d 0) eqn:E; [apply Qle_refl|].
  apply ltb_false in E.
  assert (H : 0 <= d * (p2 - p1)) by (apply Qmult_le_0_compat; lra).
  lra.
Qed.

(** Over exact rationals.  Saving more never raises the savings-adjusted series: for
    [p1 <= p2] the savings-adjusted balance and the lower limit under
    [p2] are at most those under [p1] on every day, and the plain balance
    is the same. *)
Lemma more_savings_lower_series (diffs : list Q) (startAmount p1 p2 : Q)
    (Hp : p1 <= p2) :
  let '(balance1, saveBalance1, lowerLimit1) :=
    createBalanceGraph diffs startAmount p1 in
  let '(balance2, saveBalance2, lowerLimit2) :=
    createBalanceGraph diffs startAmount p2 in
  balance2 = balance1
  /\ Forall2 Qle saveBalance2 saveBalance1
  /\ Forall2 Qle lowerLimit2 lowerLimit1.
Proof.
  unfold createBalanceGraph.
  rewrite !simulate_balances, !simulate_saveBalances.
  assert (H : Forall2 Qle
                (accumulate (save_contribution p2) startAmount diffs)
                (accumulate (save_contribution p1) startAmount diffs)).
  { apply accumulate_pointwise_le; [|apply Qle_refl].
    apply Forall_forall. intros d _. now apply save_contribution_antitone. }
  split; [reflexivity|]. split; [exact H | now apply computeLowerLimit_mono].
Qed.


Lemma accumulate_raised (contrib : Q -> Q) (c : Q) (diffs : list Q)
    (cur cur' : Q) :
  raised_by c cur cur' ->
  Forall2 (raised_by c) (accumulate contrib cur diffs)
    (accumulate contrib cur' diffs).
Proof.
  unfold raised_by. revert cur cur'.
  induction diffs as [|d r IH]; intros cur cur' Hc; cbn [accumulate];
    constructor.
  - rewrite Hc. ring.
  - apply IH. rewrite Hc. ring.
Qed.

Lemma computeLowerLimit_raised (c : Q) (l l' : list Q) :
  Forall2 (raised_by c) l l' ->
  Forall2 (raised_by c) (computeLowerLimit l) (computeLowerLimit l').
Proof.
  unfold raised_by. intros H.
  induction H as [|x x' r r' Hx _ IH]; [constructor|].
  rewrite !computeLowerLimit_cons. constructor; [|exact IH].
  destruct IH as [|m m' ll ll' Hm _]; cbn [running_minimum Py.min].
  - exact Hx.
  - destruct (Py.ltb m x) eqn:E; destruct (Py.ltb m' x') eqn:E';
      rewrite ?ltb_true, ?ltb_false in *; try assumption; lra.
Qed.

(** Over exact rationals.  A higher start amount raises all three series by the same
    amount on every day. *)
Lemma start_amount_shifts_series (diffs : list Q)
    (startAmount saveProportion c : Q) :
  let '(balance, saveBalance, lowerLimit) :=
    createBalanceGraph diffs startAmount saveProportion in
  let '(balance', saveBalance', lowerLimit') :=
    createBalanceGraph diffs (startAmount + c) saveProportion in
  Forall2 (fun x y => y == x + c) balance balance'
  /\ Forall2 (fun x y => y == x + c) saveBalance saveBalance'
  /\ Forall2 (fun x y => y == x + c) lowerLimit lowerLimit'.
Proof.
  unfold createBalanceGraph.
  rewrite !simulate_balances, !simulate_saveBalances.
  assert (Hs : raised_by c startAmount (startAmount + c)) by reflexivity.
  split; [exact (accumulate_raised _ c diffs _ _ Hs)|].
  split; [exact (accumulate_raised _ c diffs _ _ Hs)|].
  apply computeLowerLimit_raised. exact (accumulate_raised _ c diffs _ _ Hs).
Qed.

Lemma save_contribution_nonpositive (p d : Q) :
  1 <= p -> save_contribution p d <= 0.
Proof.
  intros Hp. unfold save_contribution.
  destruct (Py.ltb d 0) eqn:E.
  - apply ltb_true in E. lra.
  - apply ltb_false in E.
    assert (H : 0 <= d * (p - 1)) by (apply Qmult_le_0_compat; lra).
    lra.
Qed.

Lemma saveBalances_falling (diffs : list Q) (startAmount p : Q) :
  1 <= p ->
  nonincreasing (saveBalances (simulate diffs startAmount p))
  /\ Forall (fun s => s <= startAmount)
       (saveBalances (simulate diffs startAmount p)).
Proof.
  intros Hp. rewrite simulate_saveBalances. apply accumulate_falling.
  apply Forall_forall. intros d _. now apply save_contribution_nonpositive.
Qed.

(** Over exact rationals.  With a save proportion of 1 or more nothing of an inflow is
    kept: the savings-adjusted balance never rises, never exceeds the
    start amount, and every entry of the lower limit equals the last
    savings-adjusted balance. *)
Lemma full_savings_never_rise (diffs : list Q) (startAmount saveProportion : Q)
    (Hp : 1 <= saveProportion) :
  let '(balance, saveBalance, lowerLimit) :=
    createBalanceGraph diffs startAmount saveProportion in
  nonincreasing saveBalance
  /\ Forall (fun s => s <= startAmount) saveBalance
  /\ (forall f m : Q,
        last saveBalance = Some f -> In m lowerLimit -> m == f).
Proof.
  unfold createBalanceGraph.
  destruct (saveBalances_falling diffs startAmount saveProportion Hp)
    as [Hmono Hall].
  split; [exact Hmono|]. split; [exact Hall|].
  intros f m Hlast Hin. exact (computeLowerLimit_flat _ f m Hmono Hlast Hin).
Qed.


End SimulationMore.

(** ** The pipeline of main *)

Section Main.
Local Open Scope Q_scope.

Lemma main_traces_unfold (strftime : datetime -> string) (startAmount : Z)
    (fromDate toDate : datetime) (savePercentage : Z)
    (transactions : list Transaction) :
  main_traces strftime startAmount fromDate toDate savePercentage transactions
  = let st :=
      simulate (map inject_Z (fst (projectDiffs transactions fromDate toDate)))
        (inject_Z startAmount) (main_saveProportion savePercentage) in
    {| trace_x := dayLabels strftime fromDate toDate;
       trace0_y := balances st;
       trace0_text := snd (projectDiffs transactions fromDate toDate);
       trace1_y := saveBalances st;
       trace2_y := computeLowerLimit (saveBalances st) |}.
Proof.
  unfold main_traces, createBalanceGraph_traces, createBalanceGraph.
  now destruct (projectDiffs transactions fromDate toDate).
Qed.

(** X21.  The five sequences handed to the plot by [main] all have one
    entry per projected day. *)
Theorem main_traces_aligned (strftime : datetime -> string) (startAmount : Z)
    (fromDate toDate : datetime) (savePercentage : Z)
    (transactions : list Transaction) :
  let tr := main_traces strftime startAmount fromDate toDate savePercentage
              transactions in
  let count := steps_until (replace_microsecond_0 fromDate) toDate in
  length (trace_x tr) = count
  /\ length (trace0_y tr) = count
  /\ length (trace0_text tr) = count
  /\ length (trace1_y tr) = count
  /\ length (trace2_y tr) = count.
Proof.
  intros tr count. subst tr count. rewrite main_traces_unfold.
  cbn [trace_x trace0_y trace0_text trace1_y trace2_y].
  rewrite computeLowerLimit_length, simulate_balances, simulate_saveBalances.
  rewrite !accumulate_length, projectDiffs_closed. cbn [fst snd].
  unfold dayLabels. rewrite !length_map, rrule_DAILY_days, days_until_length.
  now repeat split.
Qed.

End Main.


(** ** The simulation over Python numbers *)

Section PythonNumbers.
Local Open Scope Q_scope.

Lemma num_ltb_exact (x y : Q) :
  Num.ltb (Num.Exact x) (Num.Exact y) = Py.ltb x y.
Proof.
  unfold Num.ltb, Num.compare. destruct (Py.ltb x y) eqn:E.
  - apply ltb_true in E. now rewrite (proj1 (Qlt_alt x y) E).
  - apply ltb_false in E. destruct (x ?= y) eqn:C; try reflexivity.
    pose proof (proj2 (Qlt_alt x y) C). lra.
Qed.

Lemma num_le_exact (x y : Q) : num_le (Num.Exact x) (Num.Exact y) <-> x <= y.
Proof.
  unfold num_le, Num.leb, Num.compare. rewrite Qle_alt.
  destruct (x ?= y); split; try reflexivity; try discriminate; congruence.
Qed.

Lemma num_eq_exact (x y : Q) : num_eq (Num.Exact x) (Num.Exact y) <-> x == y.
Proof.
  unfold num_eq, Num.eqb, Num.compare. rewrite Qeq_alt.
  destruct (x ?= y); split; try reflexivity; discriminate.
Qed.

Lemma simulate_body_exact (p d : Q) (st : sim_state) :
  simulate_body_num (Num.Exact p) (exact_state st) (Num.Exact d)
  = Some (exact_state (simulate_body p st d)).
Proof.
  unfold simulate_body_num. cbn [exact_state num_currentBalance
    num_currentSaveBalance num_balances num_saveBalances Num.add Num.sub
    Num.arith].
  rewrite num_ltb_exact. unfold exact_state, simulate_body.
  cbn [currentBalance currentSaveBalance balances saveBalances].
  rewrite !map_app.
  destruct (Py.ltb d 0); reflexivity.
Qed.

Lemma simulate_loop_exact (p : Q) (diffs : list Q) (st : sim_state) :
  simulate_loop_num (Num.Exact p) (map Num.Exact diffs) (exact_state st)
  = Some (exact_state (fold_left (simulate_body p) diffs st)).
Proof.
  revert st. induction diffs as [|d r IH]; intros st; [reflexivity|].
  cbn [map simulate_loop_num fold_left]. rewrite simulate_body_exact. apply IH.
Qed.

Lemma simulate_exact (diffs : list Q) (start p : Q) :
  simulate_num (map Num.Exact diffs) (Num.Exact start) (Num.Exact p)
  = Some (exact_state (simulate diffs start p)).
Proof.
  exact (simulate_loop_exact p diffs
           {| currentBalance := start; currentSaveBalance := start;
              balances := []; saveBalances := [] |}).
Qed.

Lemma num_min_exact (a : Q) (b : Py.bound) :
  Num.min (Num.Exact a) (exact_bound b) = Num.Exact (Py.min a b).
Proof.
  destruct b as [q|]; cbn [exact_bound Py.min].
  - unfold Num.min. rewrite num_ltb_exact. now destruct (Py.ltb q a).
  - reflexivity.
Qed.

Lemma lowerLimit_body_exact (st : ll_state) (k : nat) (x : Q) :
  lowerLimit_body_num (exact_ll_state st) (k, Num.Exact x)
  = exact_ll_state (lowerLimit_body st (O, x)).
Proof.
  unfold lowerLimit_body_num, lowerLimit_body, exact_ll_state.
  cbn [num_currentLowerLimit num_lowerLimitBalances currentLowerLimit
       lowerLimitBalances exact_bound map].
  now rewrite num_min_exact.
Qed.

Lemma fold_enumerate_exact (l : list Q) (k : nat) :
  fold_right (fun ib st => lowerLimit_body_num st ib) (exact_ll_state ll_init)
    (combine (seq k (length l)) (map Num.Exact l))
  = exact_ll_state (backward_walk l).
Proof.
  revert k. induction l as [|x r IH]; intros k; [reflexivity|].
  cbn [length seq map combine fold_right backward_walk].
  now rewrite IH, lowerLimit_body_exact.
Qed.

Lemma computeLowerLimit_exact (l : list Q) :
  computeLowerLimit_num (map Num.Exact l) = map Num.Exact (computeLowerLimit l).
Proof.
  rewrite computeLowerLimit_walk. unfold computeLowerLimit_num, Py.enumerate.
  rewrite fold_left_rev, length_map.
  change {| num_currentLowerLimit := Num.Float infinity;
            num_lowerLimitBalances := [] |} with (exact_ll_state ll_init).
  now rewrite fold_enumerate_exact.
Qed.

Lemma exact_run (diffs : list Q) (start p : Q) :
  createBalanceGraph_num (map Num.Exact diffs) (Num.Exact start) (Num.Exact p)
  = Some (map Num.Exact (balances (simulate diffs start p)),
          map Num.Exact (saveBalances (simulate diffs start p)),
          map Num.Exact (computeLowerLimit (saveBalances (simulate diffs start p)))).
Proof.
  unfold createBalanceGraph_num. rewrite simulate_exact.
  cbn [exact_state num_balances num_saveBalances].
  now rewrite computeLowerLimit_exact.
Qed.

Lemma Forall2_exact_le (l1 l2 : list Q) :
  Forall2 Qle l1 l2 ->
  Forall2 num_le (map Num.Exact l1) (map Num.Exact l2).
Proof.
  induction 1 as [|a b r1 r2 Hab _ IH]; cbn [map]; constructor;
    [now apply num_le_exact | exact IH].
Qed.

Lemma Forall2_exact_eq (l1 l2 : list Q) :
  Forall2 Qeq l1 l2 ->
  Forall2 num_eq (map Num.Exact l1) (map Num.Exact l2).
Proof.
  induction 1 as [|a b r1 r2 Hab _ IH]; cbn [map]; constructor;
    [now apply num_eq_exact | exact IH].
Qed.

(** C8 as stated fails with the float save proportion [0.0] (which equals
    [0]): for one diff of [2^53 + 3] and a start amount of [0] the balance
    is the int [9007199254740995] and the savings-adjusted balance the
    float [9007199254740996.0]. *)
Lemma zero_savings_rounding :
  num_eq (Num.Float 0%float) (Num.Exact 0)
  /\ option_map num_balances rounding_run = Some [Num.Exact big_diff]
  /\ option_map num_saveBalances rounding_run
     = Some [Num.Float 9007199254740996%float]
  /\ Num.eqb (Num.Float 9007199254740996%float) (Num.Exact big_diff) = false.
Proof. repeat split; vm_compute; reflexivity. Qed.

(** C8, amended.  Round-trip with zero savings in exact arithmetic: when
    the diffs, the start amount and the save proportion are exact numbers
    (ints or Fractions) and the save proportion equals 0, the simulation
    raises nothing and the savings-adjusted balance equals the balance at
    every index. *)
Theorem zero_savings_roundtrip_exact (diffs : list Q)
    (startAmount saveProportion : Q) (Hzero : saveProportion == 0) :
  exists st : num_state,
    simulate_num (map Num.Exact diffs) (Num.Exact startAmount)
      (Num.Exact saveProportion) = Some st
    /\ Forall2 num_eq (num_saveBalances st) (num_balances st).
Proof.
  eexists. split; [apply simulate_exact|].
  cbn [exact_state num_balances num_saveBalances].
  apply Forall2_exact_eq. now apply zero_savings_roundtrip.
Qed.

Lemma zero_savings_roundtrip_exact_witness :
  exists st : num_state,
    simulate_num (map Num.Exact [-10 # 1; 50 # 1; -5 # 1])
      (Num.Exact (100 # 1)) (Num.Exact 0) = Some st
    /\ Forall2 num_eq (num_saveBalances st) (num_balances st).
Proof.
  apply (zero_savings_roundtrip_exact [-10 # 1; 50 # 1; -5 # 1] (100 # 1) 0).
  reflexivity.
Defined.

(** C10 as stated fails with the float save proportion [0.0], which lies
    between 0 and 1: for one diff of [2^53 + 3] and a start amount of [0]
    the savings-adjusted balance [9007199254740996.0] exceeds the balance
    [9007199254740995]. *)
Lemma saveBalance_above_balance :
  num_le (Num.Exact 0) (Num.Float 0%float)
  /\ num_le (Num.Float 0%float) (Num.Exact 1)
  /\ option_map num_saveBalances rounding_run
     = Some [Num.Float 9007199254740996%float]
  /\ option_map num_balances rounding_run = Some [Num.Exact big_diff]
  /\ Num.leb (Num.Float 9007199254740996%float) (Num.Exact big_diff) = false
  /\ Num.ltb (Num.Exact big_diff) (Num.Float 9007199254740996%float) = true.
Proof. repeat split; vm_compute; reflexivity. Qed.

(** C10, amended.  In exact arithmetic the savings-adjusted track never
    exceeds the plain track: when the diffs, the start amount and the save
    proportion are exact numbers (ints or Fractions) and
    [0 <= saveProportion <= 1], the simulation raises nothing and
    [saveBalance[i] <= balance[i]] at every index. *)
Theorem saveBalance_le_balance_exact (diffs : list Q)
    (startAmount saveProportion : Q)
    (Hlo : 0 <= saveProportion) (Hhi : saveProportion <= 1) :
  exists st : num_state,
    simulate_num (map Num.Exact diffs) (Num.Exact startAmount)
      (Num.Exact saveProportion) = Some st
    /\ Forall2 num_le (num_saveBalances st) (num_balances st).
Proof.
  eexists. split; [apply simulate_exact|].
  cbn [exact_state num_balances num_saveBalances].
  apply Forall2_exact_le. now apply saveBalance_le_balance.
Qed.

Lemma saveBalance_le_balance_exact_witness :
  exists st : num_state,
    simulate_num (map Num.Exact [-10 # 1; 50 # 1; -5 # 1])
      (Num.Exact (100 # 1)) (Num.Exact (3 # 10)) = Some st
    /\ Forall2 num_le (num_saveBalances st) (num_balances st).
Proof.
  apply (saveBalance_le_balance_exact [-10 # 1; 50 # 1; -5 # 1] (100 # 1)
           (3 # 10)); discriminate.
Defined.

End PythonNumbers.

(** ** Further properties over Python numbers *)

Section PythonNumbersMore.
Local Open Scope Q_scope.

Lemma exact_nondecreasing (l : list Q) :
  nondecreasing l -> num_nondecreasing (map Num.Exact l).
Proof.
  intros H i a b Ha Hb. rewrite list_lookup_fmap in Ha, Hb.
  destruct (l !! i) as [x|] eqn:Hx; [|discriminate Ha].
  destruct (l !! S i) as [y|] eqn:Hy; [|discriminate Hb].
  injection Ha as <-. injection Hb as <-.
  apply num_le_exact. exact (H i x y Hx Hy).
Qed.

Lemma exact_nonincreasing (l : list Q) :
  nonincreasing l -> num_nonincreasing (map Num.Exact l).
Proof.
  intros H i a b Ha Hb. rewrite list_lookup_fmap in Ha, Hb.
  destruct (l !! i) as [x|] eqn:Hx; [|discriminate Ha].
  destruct (l !! S i) as [y|] eqn:Hy; [|discriminate Hb].
  injection Ha as <-. injection Hb as <-.
  apply num_le_exact. exact (H i x y Hx Hy).
Qed.

Lemma body_balance_exact (p : Num.num) (st st' : num_state) (c d : Q) :
  num_currentBalance st = Num.Exact c ->
  simulate_body_num p st (Num.Exact d) = Some st' ->
  num_currentBalance st' = Num.Exact (c + d)
  /\ num_balances st' = num_balances st ++ [Num.Exact (c + d)].
Proof.
  intros Hc H. unfold simulate_body_num in H. rewrite Hc in H.
  cbn [Num.add Num.arith] in H.
  repeat case_match; simplify_eq; now split.
Qed.

Lemma loop_balance_exact (p : Num.num) (diffs : list Q) (st st' : num_state)
    (c : Q) :
  num_currentBalance st = Num.Exact c ->
  simulate_loop_num p (map Num.Exact diffs) st = Some st' ->
  num_balances st'
  = num_balances st ++ map Num.Exact (accumulate (fun d => d) c diffs).
Proof.
  revert st c. induction diffs as [|d r IH]; intros st c Hc H.
  - injection H as <-. now rewrite app_nil_r.
  - cbn [map simulate_loop_num] in H.
    destruct (simulate_body_num p st (Num.Exact d)) as [st1|] eqn:E;
      [|discriminate H].
    destruct (body_balance_exact _ _ _ _ _ Hc E) as [Hc1 Hb1].
    rewrite (IH _ _ Hc1 H), Hb1. cbn [accumulate map].
    now rewrite <- app_assoc.
Qed.

(** X14.  For exact diffs and an exact start amount, and any save
    proportion (a float included), the balance of day [i] is the exact
    number [startAmount + diffs[0] + ... + diffs[i]]: the plain balance is
    never rounded. *)
Theorem balance_running_sum_num (diffs : list Q) (startAmount : Q)
    (saveProportion : Num.num) (st : num_state) (i : nat) (b : Num.num)
    (Hrun : simulate_num (map Num.Exact diffs) (Num.Exact startAmount)
              saveProportion = Some st)
    (Hb : num_balances st !! i = Some b) :
  exists q : Q, b = Num.Exact q /\ q == startAmount + Qsum (take (S i) diffs).
Proof.
  unfold simulate_num in Hrun.
  apply (loop_balance_exact saveProportion diffs _ st startAmount) in Hrun;
    [|reflexivity].
  cbn [num_balances app] in Hrun. rewrite Hrun, list_lookup_fmap in Hb.
  destruct (accumulate _ _ _ !! i) as [q|] eqn:Hq; [|discriminate Hb].
  injection Hb as <-. exists q. split; [reflexivity|].
  now apply accumulate_sum.
Qed.

Lemma balance_running_sum_num_witness :
  exists q : Q,
    Num.Exact (135 # 1) = Num.Exact q
    /\ q == (100 # 1) + Qsum (take 3 [-10 # 1; 50 # 1; -5 # 1]).
Proof.
  eapply (balance_running_sum_num [-10 # 1; 50 # 1; -5 # 1] (100 # 1)
            (Num.Float 0.5%float) _ 2).
  - vm_compute. reflexivity.
  - reflexivity.
Defined.

(** X15.  In exact arithmetic, with [0 <= saveProportion <= 1], the
    lower limit never exceeds the plain balance of the same day. *)
Theorem lowerLimit_le_balance_exact (diffs : list Q)
    (startAmount saveProportion : Q)
    (Hlo : 0 <= saveProportion) (Hhi : saveProportion <= 1) :
  exists balance saveBalance lowerLimit : list Num.num,
    createBalanceGraph_num (map Num.Exact diffs) (Num.Exact startAmount)
      (Num.Exact saveProportion) = Some (balance, saveBalance, lowerLimit)
    /\ Forall2 num_le lowerLimit balance.
Proof.
  do 3 eexists. split; [apply exact_run|].
  apply Forall2_exact_le.
  exact (lowerLimit_le_balance diffs startAmount saveProportion Hlo Hhi).
Qed.

Lemma lowerLimit_le_balance_exact_witness :
  exists balance saveBalance lowerLimit : list Num.num,
    createBalanceGraph_num (map Num.Exact [-10 # 1; 50 # 1; -5 # 1])
      (Num.Exact (100 # 1)) (Num.Exact (3 # 10))
    = Some (balance, saveBalance, lowerLimit)
    /\ Forall2 num_le lowerLimit balance.
Proof.
  apply (lowerLimit_le_balance_exact [-10 # 1; 50 # 1; -5 # 1] (100 # 1)
           (3 # 10)); discriminate.
Defined.

(** X16.  In exact arithmetic, when no diff is negative and the save
    proportion is at most 1, the savings-adjusted balance never falls and
    the lower limit is the savings-adjusted balance itself. *)
Theorem no_charges_exact (diffs : list Q) (startAmount saveProportion : Q)
    (Hpos : Forall (fun d => 0 <= d) diffs) (Hhi : saveProportion <= 1) :
  exists balance saveBalance lowerLimit : list Num.num,
    createBalanceGraph_num (map Num.Exact diffs) (Num.Exact startAmount)
      (Num.Exact saveProportion) = Some (balance, saveBalance, lowerLimit)
    /\ num_nondecreasing saveBalance
    /\ lowerLimit = saveBalance.
Proof.
  do 3 eexists. split; [apply exact_run|].
  destruct (no_charges_lowerLimit diffs startAmount saveProportion Hpos Hhi)
    as [Hmono Heq].
  split; [now apply exact_nondecreasing | now rewrite Heq].
Qed.

Lemma no_charges_exact_witness :
  exists balance saveBalance lowerLimit : list Num.num,
    createBalanceGraph_num (map Num.Exact [10 # 1; 0; 50 # 1])
      (Num.Exact (100 # 1)) (Num.Exact (3 # 10))
    = Some (balance, saveBalance, lowerLimit)
    /\ num_nondecreasing saveBalance
    /\ lowerLimit = saveBalance.
Proof.
  apply (no_charges_exact [10 # 1; 0; 50 # 1] (100 # 1) (3 # 10)).
  - repeat constructor; discriminate.
  - discriminate.
Defined.

Lemma body_charge (p : Num.num) (st st' : num_state) (d : Num.num) :
  Num.ltb d (Num.Exact 0) = true ->
  num_currentSaveBalance st = num_currentBalance st ->
  num_saveBalances st = num_balances st ->
  simulate_body_num p st d = Some st' ->
  num_currentSaveBalance st' = num_currentBalance st'
  /\ num_saveBalances st' = num_balances st'.
Proof.
  intros Hd Hc Hl H. unfold simulate_body_num in H.
  rewrite Hd, Hc, Hl in H.
  destruct (Num.add (num_currentBalance st) d) as [x|]; [|discriminate H].
  injection H as <-. now split.
Qed.

(** X17.  When every diff is negative, the savings-adjusted balance is
    identical to the plain balance, whatever the numbers are (floats
    included) and whatever the save proportion is: no product is ever
    formed. *)
Theorem charges_only_identical (diffs : list Num.num)
    (startAmount saveProportion : Num.num) (st : num_state)
    (Hneg : Forall (fun d => Num.ltb d (Num.Exact 0) = true) diffs)
    (Hrun : simulate_num diffs startAmount saveProportion = Some st) :
  num_saveBalances st = num_balances st.
Proof.
  unfold simulate_num in Hrun.
  set (st0 := {| num_currentBalance := startAmount;
                 num_currentSaveBalance := startAmount;
                 num_balances := []; num_saveBalances := [] |}) in Hrun.
  assert (H0 : num_currentSaveBalance st0 = num_currentBalance st0
               /\ num_saveBalances st0 = num_balances st0) by now split.
  clearbody st0. revert st0 H0 Hrun.
  induction Hneg as [|d r Hd _ IH]; intros st0 [Hc Hl] Hrun.
  - now injection Hrun as <-.
  - cbn [simulate_loop_num] in Hrun.
    destruct (simulate_body_num saveProportion st0 d) as [st1|] eqn:E;
      [|discriminate Hrun].
    exact (IH st1 (body_charge _ _ _ _ Hd Hc Hl E) Hrun).
Qed.

Lemma charges_only_identical_witness :
  option_map num_saveBalances
    (simulate_num [Num.Exact (-10 # 1); Num.Float (-0.5)%float]
       (Num.Exact (100 # 1)) (Num.Float 0.5%float))
  = option_map num_balances
      (simulate_num [Num.Exact (-10 # 1); Num.Float (-0.5)%float]
         (Num.Exact (100 # 1)) (Num.Float 0.5%float)).
Proof.
  destruct (simulate_num [Num.Exact (-10 # 1); Num.Float (-0.5)%float]
              (Num.Exact (100 # 1)) (Num.Float 0.5%float)) as [st|] eqn:E;
    [|reflexivity].
  cbn [option_map]. f_equal.
  apply (charges_only_identical
           [Num.Exact (-10 # 1); Num.Float (-0.5)%float]
           (Num.Exact (100 # 1)) (Num.Float 0.5%float) st);
    [repeat constructor | exact E].
Defined.

(** X18.  In exact arithmetic, saving more never raises the
    savings-adjusted series: for [p1 <= p2] the savings-adjusted balance
    and the lower limit under [p2] are at most those under [p1] on every
    day, and the plain balance is the same. *)
Theorem more_savings_exact (diffs : list Q) (startAmount p1 p2 : Q)
    (Hp : p1 <= p2) :
  exists balance1 saveBalance1 lowerLimit1 balance2 saveBalance2 lowerLimit2
         : list Num.num,
    createBalanceGraph_num (map Num.Exact diffs) (Num.Exact startAmount)
      (Num.Exact p1) = Some (balance1, saveBalance1, lowerLimit1)
    /\ createBalanceGraph_num (map Num.Exact diffs) (Num.Exact startAmount)
         (Num.Exact p2) = Some (balance2, saveBalance2, lowerLimit2)
    /\ balance2 = balance1
    /\ Forall2 num_le saveBalance2 saveBalance1
    /\ Forall2 num_le lowerLimit2 lowerLimit1.
Proof.
  do 6 eexists. split; [apply exact_run|]. split; [apply exact_run|].
  pose proof (more_savings_lower_series diffs startAmount p1 p2 Hp) as H.
  unfold createBalanceGraph in H. destruct H as (Hb & Hs & Hl).
  split; [now rewrite Hb|].
  split; now apply Forall2_exact_le.
Qed.

Lemma more_savings_exact_witness :
  exists balance1 saveBalance1 lowerLimit1 balance2 saveBalance2 lowerLimit2
         : list Num.num,
    createBalanceGraph_num (map Num.Exact [-10 # 1; 50 # 1; -5 # 1])
      (Num.Exact (100 # 1)) (Num.Exact (1 # 4))
    = Some (balance1, saveBalance1, lowerLimit1)
    /\ createBalanceGraph_num (map Num.Exact [-10 # 1; 50 # 1; -5 # 1])
         (Num.Exact (100 # 1)) (Num.Exact (1 # 2))
       = Some (balance2, saveBalance2, lowerLimit2)
    /\ balance2 = balance1
    /\ Forall2 num_le saveBalance2 saveBalance1
    /\ Forall2 num_le lowerLimit2 lowerLimit1.
Proof.
  apply (more_savings_exact [-10 # 1; 50 # 1; -5 # 1] (100 # 1) (1 # 4)
           (1 # 2)).
  discriminate.
Defined.

Lemma Forall2_exact_raised (c : Q) (l l' : list Q) :
  Forall2 (fun x y => y == x + c) l l' ->
  Forall2 (num_raised_by c) (map Num.Exact l) (map Num.Exact l').
Proof.
  induction 1 as [|x y r r' Hxy _ IH]; cbn [map]; constructor; [|exact IH].
  exists (Num.Exact (x + c)). split; [reflexivity | now apply num_eq_exact].
Qed.

(** X19.  In exact arithmetic, a start amount higher by [c] raises the
    balance, the savings-adjusted balance and the lower limit by [c] on
    every day. *)
Theorem start_amount_shift_exact (diffs : list Q)
    (startAmount saveProportion c : Q) :
  exists balance saveBalance lowerLimit balance' saveBalance' lowerLimit'
         : list Num.num,
    createBalanceGraph_num (map Num.Exact diffs) (Num.Exact startAmount)
      (Num.Exact saveProportion) = Some (balance, saveBalance, lowerLimit)
    /\ createBalanceGraph_num (map Num.Exact diffs)
         (Num.Exact (startAmount + c)) (Num.Exact saveProportion)
       = Some (balance', saveBalance', lowerLimit')
    /\ Forall2 (num_raised_by c) balance balance'
    /\ Forall2 (num_raised_by c) saveBalance saveBalance'
    /\ Forall2 (num_raised_by c) lowerLimit lowerLimit'.
Proof.
  do 6 eexists. split; [apply exact_run|]. split; [apply exact_run|].
  pose proof (start_amount_shifts_series diffs startAmount saveProportion c)
    as H.
  unfold createBalanceGraph in H. destruct H as (Hb & Hs & Hl).
  repeat split; now apply Forall2_exact_raised.
Qed.

(** X20.  In exact arithmetic, with a save proportion of 1 or more the
    savings-adjusted balance never rises, never exceeds the start amount,
    and every entry of the lower limit equals the last savings-adjusted
    balance. *)
Theorem full_savings_exact (diffs : list Q) (startAmount saveProportion : Q)
    (Hp : 1 <= saveProportion) :
  exists balance saveBalance lowerLimit : list Num.num,
    createBalanceGraph_num (map Num.Exact diffs) (Num.Exact startAmount)
      (Num.Exact saveProportion) = Some (balance, saveBalance, lowerLimit)
    /\ num_nonincreasing saveBalance
    /\ Forall (fun x => num_le x (Num.Exact startAmount)) saveBalance
    /\ (forall f m : Num.num,
          last saveBalance = Some f -> In m lowerLimit -> num_eq m f).
Proof.
  do 3 eexists. split; [apply exact_run|].
  pose proof (full_savings_never_rise diffs startAmount saveProportion Hp)
    as H.
  unfold createBalanceGraph in H. destruct H as (Hmono & Hall & Hflat).
  split; [now apply exact_nonincreasing|]. split.
  - apply Forall_fmap. eapply Forall_impl; [exact Hall|].
    intros x Hx. now apply num_le_exact.
  - intros f m Hlast Hin. rewrite fmap_last in Hlast.
    destruct (last (saveBalances _)) as [fq|] eqn:Hf; [|discriminate Hlast].
    injection Hlast as <-.
    apply in_map_iff in Hin as (mq & <- & Hin).
    apply num_eq_exact. exact (Hflat fq mq eq_refl Hin).
Qed.

Lemma full_savings_exact_witness :
  exists balance saveBalance lowerLimit : list Num.num,
    createBalanceGraph_num (map Num.Exact [-10 # 1; 50 # 1; -5 # 1])
      (Num.Exact (100 # 1)) (Num.Exact 1)
    = Some (balance, saveBalance, lowerLimit)
    /\ num_nonincreasing saveBalance
    /\ Forall (fun x => num_le x (Num.Exact (100 # 1))) saveBalance
    /\ (forall f m : Num.num,
          last saveBalance = Some f -> In m lowerLimit -> num_eq m f).
Proof.
  apply (full_savings_exact [-10 # 1; 50 # 1; -5 # 1] (100 # 1) 1).
  discriminate.
Defined.

Lemma Forall_exact (l : list Q) : Forall is_exact (map Num.Exact l).
Proof. apply Forall_fmap, Forall_forall. intros q _. now exists q. Qed.

(** X25.  On exact diffs, start amount and save proportion (ints or
    Fractions) the loops of [createBalanceGraph] raise nothing, and the
    three series consist of exact numbers, one for each diff. *)
Theorem exact_inputs_exact_series (diffs : list Q)
    (startAmount saveProportion : Q) :
  exists balance saveBalance lowerLimit : list Num.num,
    createBalanceGraph_num (map Num.Exact diffs) (Num.Exact startAmount)
      (Num.Exact saveProportion) = Some (balance, saveBalance, lowerLimit)
    /\ Forall is_exact balance
    /\ Forall is_exact saveBalance
    /\ Forall is_exact lowerLimit
    /\ length balance = length diffs
    /\ length saveBalance = length diffs
    /\ length lowerLimit = length diffs.
Proof.
  do 3 eexists. split; [apply exact_run|].
  rewrite !length_map, computeLowerLimit_length.
  rewrite simulate_balances, simulate_saveBalances, !accumulate_length.
  repeat split; apply Forall_exact.
Qed.

End PythonNumbersMore.
